(** * The oxc VS Code client: formatter session and top-level fan-out

    A shallow embedding of [client/formatter.ts] and [client/extension.ts].

    The two TypeScript modules are asynchronous, but every [await] in them is
    sequential (no two tasks of one function overlap), so a function is
    embedded as a state transformer over a [World] that also returns what it
    emitted towards its collaborators (the file system, the output channel,
    the editor window, the language client object, the configuration
    service).  Exceptions (a rejected promise, a [throw]) are a [Throw]
    result. *)

From Stdlib Require Import ZArith String List Bool Lia.
From stdpp Require Import base option list gmap strings.

Local Open Scope string_scope.
Local Open Scope list_scope.

(** ** JavaScript values the modules rely on *)

(** [if (s)] on a [string | undefined]: undefined and the empty string are
    falsy. *)
Definition truthy (v : option string) : bool :=
  match v with
  | Some s => negb (String.eqb s "")
  | None => false
  end.

(** [v || d] on a [string | undefined]. *)
Definition js_or (v : option string) (d : string) : string :=
  match v with
  | Some s => if String.eqb s "" then d else s
  | None => d
  end.

(** [v ?? d] on a [string | undefined]. *)
Definition js_nullish (v : option string) (d : string) : string :=
  match v with
  | Some s => s
  | None => d
  end.

(** [s.endsWith(suffix)]: one of the tails of [s] is [suffix]. *)
Fixpoint endsWith (s suffix : string) : bool :=
  String.eqb s suffix ||
  match s with
  | EmptyString => false
  | String _ rest => endsWith rest suffix
  end.

(** [xs.join(sep)]. *)
Fixpoint join (sep : string) (xs : list string) : string :=
  match xs with
  | [] => ""
  | [x] => x
  | x :: rest => x +:+ sep +:+ join sep rest
  end.

(** ** Data model *)

(** A settings snapshot ([configService.languageServerConfig], the result of
    [toLanguageServerConfig()]).  The modules only copy snapshots around, so a
    snapshot is kept as its JSON text. *)
Definition Settings := string.

(** [vscode.Uri]; [Uri.parse] belongs to the host and is a field of the
    [World]. *)
Record Uri := MkUri { uriText : string }.

(** A per-folder configuration ([WorkspaceConfig]); only its
    [toLanguageServerConfig()] view is used. *)
Record WorkspaceConfig := { toLanguageServerConfig : Settings }.

(** [ConfigurationChangeEvent]: the configuration sections it affects. *)
Definition ConfigurationChangeEvent := list string.

(** [MessageType] of the language server protocol. *)
Module MessageType.
Definition Error : Z := 1.
Definition Warning : Z := 2.
Definition Info : Z := 3.
Definition Log : Z := 4.
Definition Debug : Z := 5.
End MessageType.

Record ShowMessageParams := { msgType : Z; message : string }.

(** [ConfigurationItem]: both members are optional in the protocol. *)
Record ConfigurationItem := { section : option string; scopeUri : option string }.

Record ExecutableOptions := {
  shell : option bool;
  env : gmap string string
}.

Record Executable := {
  command : string;
  args : list string;
  options : ExecutableOptions
}.

Record ServerOptions := { run : Executable; debug : Executable }.

Record DocumentFilter := { pattern : string; scheme : string }.

Record LanguageClientOptions := {
  documentSelector : list DocumentFilter;
  initializationOptions : Settings
}.

(** The lifecycle of a session as its callers observe it between two
    operations: [Unstarted] after construction, [Running] after a successful
    start, [Stopped] after a stop, [StartFailed] after a start that failed. *)
Inductive ClientState := Unstarted | Running | Stopped | StartFailed.

Record LanguageClient := {
  clientName : string;
  serverOptions : ServerOptions;
  clientOptions : LanguageClientOptions;
  clientState : ClientState
}.

Definition isRunning (c : LanguageClient) : bool :=
  match clientState c with
  | Running => true
  | _ => false
  end.

(** The session is in the state a failed start leaves behind. *)
Definition startFailed (c : LanguageClient) : bool :=
  match clientState c with
  | StartFailed => true
  | _ => false
  end.

Record StatusBarItem := {
  sbToggles : bool;   (* command = OxcCommands.ToggleEnable *)
  sbText : string;
  sbBackgroundColor : string;
  sbShown : bool
}.

(** What [configService.onConfigChange] is bound to. *)
Inductive Handler :=
| HandlerUnset
| HandlerExtension   (* the fan-out closure of extension.ts *)
| HandlerFormatter   (* the closure bound by the formatter's activate *)
| HandlerLinter.     (* a closure bound by the linter's activate *)

(** [ConfigService] as this code uses it. *)
Record ConfigService := {
  enable : bool;                                   (* vsCodeConfig.enable *)
  nodePath : option string;                        (* vsCodeConfig.nodePath *)
  oxfmtServerBinPath : option string;              (* getOxfmtServerBinPath() *)
  languageServerConfig : Settings;
  getWorkspaceConfig : Uri -> option WorkspaceConfig;
  effectsWorkspaceConfigChange : ConfigurationChangeEvent -> bool;
  onConfigChangeHandler : Handler
}.

(** Entries of [context.subscriptions]. *)
Inductive Disposable :=
| DRestartCommand | DShowOutputCommand | DToggleEnable | DConfigService
| DOutputChannelLint | DOutputChannelFormat | DWorkspaceFolders
| DNotification | DDeleteFiles | DStatusBarItem.

(** Entry points of the linter module. *)
Inductive LinterEntry :=
| LinterActivate | LinterDeactivate | LinterRestart | LinterToggle
| LinterOnConfigChange (event : ConfigurationChangeEvent).

(** What a function does to its collaborators, in order. *)
Inductive Effect :=
| FsAccess (path : string)
| OutputDebug (msg : string)
| OutputInfo (msg : string)
| OutputError (msg : string)
| ShowInformationMessage (msg : string)
| ShowWarningMessage (msg : string)
| ShowErrorMessage (msg : string)
| ClientNew (name : string)
| ClientStart
| ClientStop
| ClientRestart
| ClientSendNotification (method : string) (settings : Settings)
| ClientError (msg : string) (err : string)
| SetInitializationOptions (settings : Settings)
| QueryConfigChange (event : ConfigurationChangeEvent)
| CallLinter (entry : LinterEntry).

Record World := {
  processEnv : gmap string string;        (* process.env *)
  processPlatform : string;               (* process.platform *)
  fsAccessible : string -> bool;          (* does fsPromises.access resolve *)
  uriParse : string -> Uri;               (* Uri.parse *)
  transport : list bool;                  (* outcomes of the coming launches
                                             and sends; none left: success *)
  configService : ConfigService;
  subscriptions : list Disposable;        (* context.subscriptions *)
  client : option LanguageClient;         (* formatter.ts: let client *)
  myStatusBarItem : option StatusBarItem  (* formatter.ts: let myStatusBarItem *)
}.

(** ** Results, outcomes and their sequencing *)

Inductive Result (A : Type) :=
| Ok (a : A)
| Throw (err : string).
Arguments Ok {A} a.
Arguments Throw {A} err.

Record Outcome (A : Type) := {
  result : Result A;
  final : World;
  emitted : list Effect
}.
Arguments result {A} _.
Arguments final {A} _.
Arguments emitted {A} _.

Definition M (A : Type) := World -> Outcome A.

Definition ret {A} (a : A) : M A :=
  fun w => {| result := Ok a; final := w; emitted := [] |}.

Definition throw {A} (err : string) : M A :=
  fun w => {| result := Throw err; final := w; emitted := [] |}.

Definition bind {A B} (m : M A) (k : A -> M B) : M B :=
  fun w =>
    let o := m w in
    match result o with
    | Ok a =>
        let o' := k a (final o) in
        {| result := result o'; final := final o';
           emitted := emitted o ++ emitted o' |}
    | Throw err =>
        {| result := Throw err; final := final o; emitted := emitted o |}
    end.

(** [try { m } catch (err) { h err }]. *)
Definition try_catch {A} (m : M A) (h : string -> M A) : M A :=
  fun w =>
    let o := m w in
    match result o with
    | Ok a => o
    | Throw err =>
        let o' := h err (final o) in
        {| result := result o'; final := final o';
           emitted := emitted o ++ emitted o' |}
    end.

Definition emit (e : Effect) : M unit :=
  fun w => {| result := Ok tt; final := w; emitted := [e] |}.

Definition get : M World :=
  fun w => {| result := Ok w; final := w; emitted := [] |}.

Definition modify (f : World -> World) : M unit :=
  fun w => {| result := Ok tt; final := f w; emitted := [] |}.

Definition when (b : bool) (m : M unit) : M unit :=
  if b then m else ret tt.

Declare Scope action_scope.
Delimit Scope action_scope with action.
Notation "'let*' x ':=' m 'in' k" := (bind m (fun x => k))
  (at level 10, x name, m at level 100, k at level 200) : action_scope.
Notation "m1 ';;;' m2" := (bind m1 (fun _ => m2))
  (at level 100, m2 at level 200, right associativity) : action_scope.
Local Open Scope action_scope.

(** ** World updates *)

Definition set_client (c : option LanguageClient) (w : World) : World :=
  {| processEnv := processEnv w; processPlatform := processPlatform w;
     fsAccessible := fsAccessible w; uriParse := uriParse w;
     transport := transport w; configService := configService w;
     subscriptions := subscriptions w; client := c;
     myStatusBarItem := myStatusBarItem w |}.

Definition set_processEnv (e : gmap string string) (w : World) : World :=
  {| processEnv := e; processPlatform := processPlatform w;
     fsAccessible := fsAccessible w; uriParse := uriParse w;
     transport := transport w; configService := configService w;
     subscriptions := subscriptions w; client := client w;
     myStatusBarItem := myStatusBarItem w |}.

Definition set_transport (t : list bool) (w : World) : World :=
  {| processEnv := processEnv w; processPlatform := processPlatform w;
     fsAccessible := fsAccessible w; uriParse := uriParse w;
     transport := t; configService := configService w;
     subscriptions := subscriptions w; client := client w;
     myStatusBarItem := myStatusBarItem w |}.

Definition set_configService (cs : ConfigService) (w : World) : World :=
  {| processEnv := processEnv w; processPlatform := processPlatform w;
     fsAccessible := fsAccessible w; uriParse := uriParse w;
     transport := transport w; configService := cs;
     subscriptions := subscriptions w; client := client w;
     myStatusBarItem := myStatusBarItem w |}.

Definition set_subscriptions (s : list Disposable) (w : World) : World :=
  {| processEnv := processEnv w; processPlatform := processPlatform w;
     fsAccessible := fsAccessible w; uriParse := uriParse w;
     transport := transport w; configService := configService w;
     subscriptions := s; client := client w;
     myStatusBarItem := myStatusBarItem w |}.

Definition set_myStatusBarItem (i : option StatusBarItem) (w : World) : World :=
  {| processEnv := processEnv w; processPlatform := processPlatform w;
     fsAccessible := fsAccessible w; uriParse := uriParse w;
     transport := transport w; configService := configService w;
     subscriptions := subscriptions w; client := client w;
     myStatusBarItem := i |}.

Definition set_clientState (s : ClientState) (c : LanguageClient) : LanguageClient :=
  {| clientName := clientName c; serverOptions := serverOptions c;
     clientOptions := clientOptions c; clientState := s |}.

Definition set_initializationOptions (s : Settings) (c : LanguageClient)
  : LanguageClient :=
  {| clientName := clientName c; serverOptions := serverOptions c;
     clientOptions :=
       {| documentSelector := documentSelector (clientOptions c);
          initializationOptions := s |};
     clientState := clientState c |}.

Definition set_handler (h : Handler) (cs : ConfigService) : ConfigService :=
  {| enable := enable cs; nodePath := nodePath cs;
     oxfmtServerBinPath := oxfmtServerBinPath cs;
     languageServerConfig := languageServerConfig cs;
     getWorkspaceConfig := getWorkspaceConfig cs;
     effectsWorkspaceConfigChange := effectsWorkspaceConfigChange cs;
     onConfigChangeHandler := h |}.

Definition set_enable (b : bool) (cs : ConfigService) : ConfigService :=
  {| enable := b; nodePath := nodePath cs;
     oxfmtServerBinPath := oxfmtServerBinPath cs;
     languageServerConfig := languageServerConfig cs;
     getWorkspaceConfig := getWorkspaceConfig cs;
     effectsWorkspaceConfigChange := effectsWorkspaceConfigChange cs;
     onConfigChangeHandler := onConfigChangeHandler cs |}.

(** ** The language client object

    [LanguageClient] comes from the vscode-languageclient package.  Its
    operations are embedded by their contract.  [start] does nothing on a
    running session and launches the server on an unstarted or stopped one;
    a launch that fails leaves the session in [StartFailed], and every later
    [start] of that session is rejected with the same error without
    launching anything.  [stop] shuts a running session down, does nothing
    on an unstarted or stopped one, and is rejected on a session whose
    start failed.  [restart] is a stop followed by a start;
    [sendNotification] may fail on the channel.  Whether a launch or a send
    goes through is read off [transport]. *)

Definition pop_transport : M bool :=
  fun w =>
    match transport w with
    | [] => {| result := Ok true; final := w; emitted := [] |}
    | ok :: rest =>
        {| result := Ok ok; final := set_transport rest w; emitted := [] |}
    end.

(** A method call on the module variable [client]. *)
Definition on_client {A} (k : LanguageClient -> M A) : M A :=
  let* w := get in
  match client w with
  | Some c => k c
  | None => throw "TypeError: client is undefined"
  end.

Definition launch : M unit :=
  on_client (fun c =>
    match clientState c with
    | Running => ret tt
    | StartFailed => throw "launch failed"
    | Unstarted | Stopped =>
        let* ok := pop_transport in
        if ok then modify (set_client (Some (set_clientState Running c)))
        else
          modify (set_client (Some (set_clientState StartFailed c))) ;;;
          throw "launch failed"
    end).

Definition shutdown : M unit :=
  on_client (fun c =>
    match clientState c with
    | Running => modify (set_client (Some (set_clientState Stopped c)))
    | StartFailed =>
        throw "Client is not running and can't be stopped: startFailed"
    | Unstarted | Stopped => ret tt
    end).

Definition client_start : M unit := emit ClientStart ;;; launch.

Definition client_stop : M unit := emit ClientStop ;;; shutdown.

Definition client_restart : M unit := emit ClientRestart ;;; shutdown ;;; launch.

Definition client_sendNotification (method : string) (settings : Settings)
  : M unit :=
  emit (ClientSendNotification method settings) ;;;
  let* ok := pop_transport in
  if ok then ret tt else throw "send failed".

(** [client.error(msg, err, 'force')]: logs and shows the message. *)
Definition client_error (msg err : string) : M unit :=
  emit (ClientError msg err).

(** [client.clientOptions.initializationOptions = settings]. *)
Definition client_setInitializationOptions (settings : Settings) : M unit :=
  emit (SetInitializationOptions settings) ;;;
  on_client (fun c =>
    modify (set_client (Some (set_initializationOptions settings c)))).

Definition push_subscriptions (ds : list Disposable) : M unit :=
  modify (fun w => set_subscriptions (subscriptions w ++ ds) w).

(** ** formatter.ts *)

Module Formatter.

Definition languageClientName : string := "oxc".

(** [fsPromises.access(bin)]: rejects when the path is not accessible. *)
Definition fs_access (path : string) : M unit :=
  emit (FsAccess path) ;;;
  let* w := get in
  if fsAccessible w path then ret tt else throw "ENOENT".

(** [findBinary]: [Some r] out of the guarded block is its [return bin]. *)
Definition findBinary : M (option string) :=
  let* w := get in
  let bin := oxfmtServerBinPath (configService w) in
  let* returned :=
    if truthy bin then
      let path := js_nullish bin "" in
      try_catch
        (fs_access path ;;; ret (Some path))
        (fun e => emit (OutputError ("Invalid bin path: " +:+ path)) ;;;
                  ret None)
    else ret None in
  match returned with
  | Some path => ret (Some path)
  | None =>
      let* w' := get in
      ret (processEnv w' !! "SERVER_PATH_DEV")
  end.

Definition serverEnv (w : World) : gmap string string :=
  let base :=
    <["RUST_LOG" := js_or (processEnv w !! "RUST_LOG") "info"]> (processEnv w) in
  let nodePath := nodePath (configService w) in
  if truthy nodePath then
    <["PATH" := js_nullish nodePath ""
                +:+ (if String.eqb (processPlatform w) "win32" then ";" else ":")
                +:+ js_nullish (processEnv w !! "PATH") ""]> base
  else base.

Definition isNode (path : string) : bool :=
  endsWith path ".js" || endsWith path ".cjs" || endsWith path ".mjs".

Definition runExecutable (platform : string) (serverEnv : gmap string string)
    (path : string) : Executable :=
  if isNode path then
    {| command := "node";
       args := [path; "--lsp"];
       options := {| shell := None; env := serverEnv |} |}
  else
    {| command := path;
       args := ["--lsp"];
       options := {| shell := Some (String.eqb platform "win32");
                     env := serverEnv |} |}.

Definition supportedExtensions : list string :=
  ["astro"; "cjs"; "cts"; "js"; "jsx"; "mjs"; "mts"; "svelte"; "ts"; "tsx";
   "vue"].

(** [clientOptions.middleware.workspace.configuration]; the closure reads
    the configuration service as it is when the request comes in. *)
Definition configurationItem (w : World) (item : ConfigurationItem)
  : option Settings :=
  match section item with
  | Some s =>
      if negb (String.eqb s "oxc_language_server") then None
      else
        match scopeUri item with
        | None => None
        | Some uri =>
            match getWorkspaceConfig (configService w) (uriParse w uri) with
            | Some wc => Some (toLanguageServerConfig wc)
            | None => None
            end
        end
  | None => None
  end.

Definition configuration (w : World) (items : list ConfigurationItem)
  : list (option Settings) :=
  map (configurationItem w) items.

(** The [ShowMessageNotification] handler. *)
Definition onShowMessage (params : ShowMessageParams) : M unit :=
  let t := msgType params in
  if (t =? MessageType.Debug)%Z then emit (OutputDebug (message params))
  else if (t =? MessageType.Log)%Z then emit (OutputInfo (message params))
  else if (t =? MessageType.Info)%Z then
    emit (ShowInformationMessage (message params))
  else if (t =? MessageType.Warning)%Z then
    emit (ShowWarningMessage (message params))
  else if (t =? MessageType.Error)%Z then
    emit (ShowErrorMessage (message params))
  else emit (OutputInfo (message params)).

Definition updateStatsBar (enable : bool) : M unit :=
  let* w := get in
  let* _ :=
    match myStatusBarItem w with
    | None =>
        modify (set_myStatusBarItem
                  (Some {| sbToggles := true; sbText := "";
                           sbBackgroundColor := ""; sbShown := false |})) ;;;
        push_subscriptions [DStatusBarItem] ;;;
        modify (fun w =>
          set_myStatusBarItem
            (option_map (fun i =>
               {| sbToggles := sbToggles i; sbText := sbText i;
                  sbBackgroundColor := sbBackgroundColor i;
                  sbShown := true |}) (myStatusBarItem w)) w)
    | Some _ => ret tt
    end in
  let bgColor :=
    if negb enable then "statusBarItem.warningBackground"
    else "statusBarItem.activeBackground" in
  let icon := if negb enable then "$(check)" else "$(check-all)" in
  modify (fun w =>
    set_myStatusBarItem
      (option_map (fun i =>
         {| sbToggles := sbToggles i; sbText := icon +:+ " oxc (fmt)";
            sbBackgroundColor := bgColor; sbShown := sbShown i |})
         (myStatusBarItem w)) w).

(** The closure that [activate] binds to [configService.onConfigChange];
    its [this] is the configuration service. *)
Definition boundOnConfigChange (event : ConfigurationChangeEvent) : M unit :=
  let* w := get in
  updateStatsBar (enable (configService w)) ;;;
  let* w := get in
  match client w with
  | None => ret tt
  | Some _ =>
      client_setInitializationOptions (languageServerConfig (configService w)) ;;;
      emit (QueryConfigChange event) ;;;
      let* w := get in
      if effectsWorkspaceConfigChange (configService w) event then
        on_client (fun c =>
          if isRunning c then
            client_sendNotification "workspace/didChangeConfiguration"
              (languageServerConfig (configService w))
          else ret tt)
      else ret tt
  end.

Definition activate : M unit :=
  let* w0 := get in
  let serverEnv := serverEnv w0 in
  let* path := findBinary in
  if negb (truthy path) then emit (OutputError "oxfmt server binary not found.")
  else
    let path := js_nullish path "" in
    emit (OutputInfo ("Using server binary at: " +:+ path)) ;;;
    let* w1 := get in
    let run := runExecutable (processPlatform w1) serverEnv path in
    let serverOptions := {| run := run; debug := run |} in
    let clientOptions :=
      {| documentSelector :=
           [ {| pattern := "**/*.{" +:+ join "," supportedExtensions +:+ "}";
                scheme := "file" |} ];
         initializationOptions := languageServerConfig (configService w1) |} in
    emit (ClientNew languageClientName) ;;;
    modify (set_client
              (Some {| clientName := languageClientName;
                       serverOptions := serverOptions;
                       clientOptions := clientOptions;
                       clientState := Unstarted |})) ;;;
    push_subscriptions [DNotification] ;;;
    push_subscriptions [DDeleteFiles] ;;;
    modify (fun w =>
      set_configService (set_handler HandlerFormatter (configService w)) w) ;;;
    let* w2 := get in
    when (enable (configService w2)) client_start.

Definition deactivate : M unit :=
  let* w := get in
  match client w with
  | None => ret tt
  | Some _ => client_stop ;;; modify (set_client None)
  end.

Definition restartClient : M unit :=
  let* w := get in
  match client w with
  | None => emit (ShowErrorMessage "oxc client not found")
  | Some c =>
      try_catch
        (if isRunning c then
           client_restart ;;;
           emit (ShowInformationMessage "oxc server restarted.")
         else client_start)
        (fun err => client_error "Restarting client failed" err)
  end.

Definition toggleClient : M unit :=
  let* w := get in
  match client w with
  | None => ret tt
  | Some c =>
      if isRunning c then
        when (negb (enable (configService w))) client_stop
      else
        when (enable (configService w)) client_start
  end.

Definition onConfigChange (event : ConfigurationChangeEvent) : M unit :=
  let* w := get in
  updateStatsBar (enable (configService w)) ;;;
  let* w := get in
  match client w with
  | None => ret tt
  | Some _ =>
      client_setInitializationOptions (languageServerConfig (configService w)) ;;;
      emit (QueryConfigChange event) ;;;
      let* w := get in
      if effectsWorkspaceConfigChange (configService w) event then
        on_client (fun c =>
          if isRunning c then
            client_sendNotification "workspace/didChangeConfiguration"
              (languageServerConfig (configService w))
          else ret tt)
      else ret tt
  end.

End Formatter.

(** ** extension.ts *)

Module Extension.

(** [process.env.NAME !== 'true'] *)
Definition notTrue (w : World) (name : string) : bool :=
  match processEnv w !! name with
  | Some v => negb (String.eqb v "true")
  | None => true
  end.

Section Linter.

(** The linter module ([./linter]) is a collaborator of this file: a call
    of one of its entry points is emitted as such.  Its [activate] may,
    like the formatter's, bind [configService.onConfigChange] to a
    closure of its own; [linterBinds] says whether it does. *)
Variable linterBinds : bool.

Definition activateLinter : M unit :=
  emit (CallLinter LinterActivate) ;;;
  when linterBinds
    (modify (fun w =>
       set_configService (set_handler HandlerLinter (configService w)) w)).

Definition deactivateLinter : M unit := emit (CallLinter LinterDeactivate).

Definition restartLinter : M unit := emit (CallLinter LinterRestart).

Definition toggleLinter : M unit := emit (CallLinter LinterToggle).

Definition onConfigChangeLinter (event : ConfigurationChangeEvent) : M unit :=
  emit (CallLinter (LinterOnConfigChange event)).

(** The handler of [OxcCommands.RestartServer]. *)
Definition restartCommand : M unit :=
  let* w := get in
  when (notTrue w "SKIP_LINTER_TEST") restartLinter ;;;
  let* w := get in
  when (notTrue w "SKIP_FORMATTER_TEST") Formatter.restartClient.

(** The handler of [OxcCommands.ToggleEnable]. *)
Definition toggleEnable : M unit :=
  modify (fun w =>
    set_configService
      (set_enable (negb (enable (configService w))) (configService w)) w) ;;;
  let* w := get in
  when (notTrue w "SKIP_LINTER_TEST") toggleLinter ;;;
  let* w := get in
  when (notTrue w "SKIP_FORMATTER_TEST") Formatter.toggleClient.

(** The closure bound to [configService.onConfigChange] by [activate]. *)
Definition onConfigChange (event : ConfigurationChangeEvent) : M unit :=
  let* w := get in
  when (notTrue w "SKIP_LINTER_TEST") (onConfigChangeLinter event) ;;;
  let* w := get in
  when (notTrue w "SKIP_FORMATTER_TEST") (Formatter.onConfigChange event).

(** [activate]; the [World]'s configuration service is the one that
    [new ConfigService()] makes. *)
Definition activate : M unit :=
  push_subscriptions
    [DRestartCommand; DShowOutputCommand; DToggleEnable; DConfigService;
     DOutputChannelLint; DOutputChannelFormat; DWorkspaceFolders] ;;;
  modify (fun w =>
    set_configService (set_handler HandlerExtension (configService w)) w) ;;;
  let* w := get in
  when (notTrue w "SKIP_LINTER_TEST") activateLinter ;;;
  let* w := get in
  when (notTrue w "SKIP_FORMATTER_TEST") Formatter.activate.

Definition deactivate : M unit :=
  let* w := get in
  when (notTrue w "SKIP_LINTER_TEST") deactivateLinter ;;;
  let* w := get in
  when (notTrue w "SKIP_FORMATTER_TEST") Formatter.deactivate.

End Linter.

End Extension.

(** ** Delivery of configuration changes *)

(** Modelled from the spec: the delivery of a configuration-change event
    by the configuration service ([ConfigService] is not among the
    sources), which calls the handler its [onConfigChange] field holds at
    that moment, "the latest configuration-change handler". *)
Definition fireConfigChange (event : ConfigurationChangeEvent) : M unit :=
  let* w := get in
  match onConfigChangeHandler (configService w) with
  | HandlerUnset => ret tt
  | HandlerExtension => Extension.onConfigChange event
  | HandlerFormatter => Formatter.boundOnConfigChange event
  | HandlerLinter => Extension.onConfigChangeLinter event
  end.

(** * Vocabulary of the properties *)

(** An outcome reached after [es] were emitted. *)
Definition after {A} (es : list Effect) (o : Outcome A) : Outcome A :=
  {| result := result o; final := final o; emitted := es ++ emitted o |}.

(** The configured path, when it is set and passes the accessibility check. *)
Definition configuredUsable (w : World) : bool :=
  let bin := oxfmtServerBinPath (configService w) in
  truthy bin && fsAccessible w (js_nullish bin "").

Definition resolvedPath (w : World) : option string :=
  if configuredUsable w then oxfmtServerBinPath (configService w)
  else processEnv w !! "SERVER_PATH_DEV".

Definition resolutionEffects (w : World) : list Effect :=
  let bin := oxfmtServerBinPath (configService w) in
  let path := js_nullish bin "" in
  if truthy bin then
    FsAccess path ::
    (if fsAccessible w path then []
     else [OutputError ("Invalid bin path: " +:+ path)])
  else [].

(** The outcome of the next launch or send, and the world once it is used
    up. *)
Definition nextOk (w : World) : bool :=
  match transport w with
  | [] => true
  | ok :: _ => ok
  end.

Definition popped (w : World) : World :=
  match transport w with
  | [] => w
  | _ :: rest => set_transport rest w
  end.

(** The path names a script for the node runtime. *)
Definition scriptPath (path : string) : Prop :=
  exists stem,
    path = stem +:+ ".js" \/ path = stem +:+ ".cjs" \/ path = stem +:+ ".mjs".

(** The variable [name] of the environment handed to the server process. *)
Definition childVariable (w : World) (name : string) : option string :=
  let nodePath := nodePath (configService w) in
  if String.eqb name "PATH" && truthy nodePath then
    Some (js_nullish nodePath ""
          +:+ (if String.eqb (processPlatform w) "win32" then ";" else ":")
          +:+ js_nullish (processEnv w !! "PATH") "")
  else if String.eqb name "RUST_LOG" then
    Some (js_or (processEnv w !! "RUST_LOG") "info")
  else processEnv w !! name.

(** The session that [activate] constructs for a resolved path, and the world
    right after its construction and the registrations that follow. *)
Definition constructed (w : World) (path : string) : LanguageClient :=
  let exe := Formatter.runExecutable (processPlatform w) (Formatter.serverEnv w) path in
  {| clientName := Formatter.languageClientName;
     serverOptions := {| run := exe; debug := exe |};
     clientOptions :=
       {| documentSelector :=
            [ {| pattern := "**/*.{" +:+ join "," Formatter.supportedExtensions +:+ "}";
                 scheme := "file" |} ];
          initializationOptions := languageServerConfig (configService w) |};
     clientState := Unstarted |}.

Definition registered (w : World) (path : string) : World :=
  set_configService (set_handler HandlerFormatter (configService w))
    (set_subscriptions ((subscriptions w ++ [DNotification]) ++ [DDeleteFiles])
       (set_client (Some (constructed w path)) w)).

(** What an answer to one item of a configuration request has to be: null
    for another section, for a missing scope and for a scope without a
    workspace configuration; the scope's language-server configuration
    otherwise. *)
Inductive PullEntry (w : World) (item : ConfigurationItem)
  : option Settings -> Prop :=
| pull_other_section :
    section item <> Some "oxc_language_server" -> PullEntry w item None
| pull_no_scope :
    scopeUri item = None -> PullEntry w item None
| pull_unresolved uri :
    scopeUri item = Some uri ->
    getWorkspaceConfig (configService w) (uriParse w uri) = None ->
    PullEntry w item None
| pull_resolved uri wc :
    section item = Some "oxc_language_server" ->
    scopeUri item = Some uri ->
    getWorkspaceConfig (configService w) (uriParse w uri) = Some wc ->
    PullEntry w item (Some (toLanguageServerConfig wc)).

(** The message went to the output channel, at whatever level. *)
Definition logged (msg : string) (effs : list Effect) : Prop :=
  In (OutputDebug msg) effs \/ In (OutputInfo msg) effs \/
  In (OutputError msg) effs.

(** The message was shown as an interactive alert, of whatever kind. *)
Definition alerted (msg : string) (effs : list Effect) : Prop :=
  In (ShowInformationMessage msg) effs \/ In (ShowWarningMessage msg) effs \/
  In (ShowErrorMessage msg) effs.

(** The notifications sent to the server, in order. *)
Fixpoint notifications (effs : list Effect) : list (string * Settings) :=
  match effs with
  | [] => []
  | ClientSendNotification method settings :: rest =>
      (method, settings) :: notifications rest
  | _ :: rest => notifications rest
  end.

(** Does the session variable hold a session that reports itself running. *)
Definition sessionRunning (w : World) : bool :=
  match client w with
  | Some c => isRunning c
  | None => false
  end.

(** Does the effect put an error before the user or into the log. *)
Definition surfacesError (e : Effect) : bool :=
  match e with
  | ShowErrorMessage _ | ClientError _ _ | OutputError _ => true
  | _ => false
  end.

(** The calls into the linter module, in order. *)
Fixpoint linterCalls (effs : list Effect) : list LinterEntry :=
  match effs with
  | [] => []
  | CallLinter entry :: rest => entry :: linterCalls rest
  | _ :: rest => linterCalls rest
  end.

(** The paths handed to [fsPromises.access], in order. *)
Fixpoint accessedPaths (effs : list Effect) : list string :=
  match effs with
  | [] => []
  | FsAccess path :: rest => path :: accessedPaths rest
  | _ :: rest => accessedPaths rest
  end.

(** Does the effect construct or start a session. *)
Definition buildsSession (e : Effect) : bool :=
  match e with
  | ClientNew _ | ClientStart | ClientRestart => true
  | _ => false
  end.

(** ** A concrete world, for the worked cases *)

Module Sample.

Definition service : ConfigService :=
  {| enable := true;
     nodePath := Some "/opt/node/bin";
     oxfmtServerBinPath := Some "/usr/local/bin/oxfmt";
     languageServerConfig := "{fmt:1}";
     getWorkspaceConfig := fun uri =>
       if String.eqb (uriText uri) "file:///w"
       then Some {| toLanguageServerConfig := "{w:1}" |}
       else None;
     effectsWorkspaceConfigChange := fun event =>
       existsb (String.eqb "oxc") event;
     onConfigChangeHandler := HandlerUnset |}.

Definition world : World :=
  {| processEnv := {[ "PATH" := "/usr/bin"; "SERVER_PATH_DEV" := "/dev/oxfmt.js" ]};
     processPlatform := "linux";
     fsAccessible := String.eqb "/usr/local/bin/oxfmt";
     uriParse := MkUri;
     transport := [];
     configService := service;
     subscriptions := [];
     client := None;
     myStatusBarItem := None |}.

Definition session (s : ClientState) : LanguageClient :=
  {| clientName := "oxc";
     serverOptions :=
       let exe := Formatter.runExecutable "linux" ∅ "/usr/local/bin/oxfmt" in
       {| run := exe; debug := exe |};
     clientOptions :=
       {| documentSelector := []; initializationOptions := "{old:0}" |};
     clientState := s |}.

Definition withSession (s : ClientState) : World :=
  set_client (Some (session s)) world.

(** The sample world with a configured path that is not accessible. *)
Definition staleBinary : World :=
  set_configService
    {| enable := true;
       nodePath := None;
       oxfmtServerBinPath := Some "/gone/oxfmt";
       languageServerConfig := "{fmt:1}";
       getWorkspaceConfig := fun _ => None;
       effectsWorkspaceConfigChange := fun _ => false;
       onConfigChangeHandler := HandlerUnset |}
    world.

(** The stale binary again, without a development path to fall back on. *)
Definition noBinary : World :=
  set_processEnv {[ "PATH" := "/usr/bin" ]} staleBinary.

(** The sample world with the formatter's kill-switch set. *)
Definition formatterSkipped : World :=
  set_processEnv (<["SKIP_FORMATTER_TEST" := "true"]> (processEnv world)) world.

End Sample.

(** * Further vocabulary and worlds *)

(** Did the action return normally. *)
Definition isOk {A} (r : Result A) : bool :=
  match r with
  | Ok _ => true
  | Throw _ => false
  end.

(** Is the effect a start, stop or restart of the session. *)
Definition isLifecycle (e : Effect) : bool :=
  match e with
  | ClientStart | ClientStop | ClientRestart => true
  | _ => false
  end.

(** Is the effect a write to the output channel. *)
Definition isChannelWrite (e : Effect) : bool :=
  match e with
  | OutputDebug _ | OutputInfo _ | OutputError _ => true
  | _ => false
  end.

(** The text of the status bar item for an enable flag. *)
Definition statusText (enable : bool) : string :=
  if enable then "$(check-all) oxc (fmt)" else "$(check) oxc (fmt)".

(** The background colour of the status bar item for an enable flag. *)
Definition statusColor (enable : bool) : string :=
  if enable then "statusBarItem.activeBackground"
  else "statusBarItem.warningBackground".

Module Cases.

(** The sample world with the extension disabled in the settings. *)
Definition disabled : World :=
  set_configService (set_enable false Sample.service) Sample.world.

(** A session in the sample world whose next launch fails. *)
Definition launchFails (s : ClientState) : World :=
  set_transport [false] (Sample.withSession s).

(** The sample world where the first launch fails and the second succeeds. *)
Definition flaky : World := set_transport [false; true] Sample.world.

(** A running session in the sample world whose next send fails. *)
Definition sendFails : World := set_transport [false] (Sample.withSession Running).

(** The sample world with the linter's kill-switch set. *)
Definition linterSkipped : World :=
  set_processEnv (<["SKIP_LINTER_TEST" := "true"]> (processEnv Sample.world))
    Sample.world.

End Cases.

(** * Properties *)

(** ** Strings *)

Lemma endsWith_unfold (s suffix : string) :
  endsWith s suffix =
  String.eqb s suffix ||
  match s with
  | EmptyString => false
  | String _ rest => endsWith rest suffix
  end.
Proof. destruct s; reflexivity. Qed.

Lemma endsWith_spec (s suffix : string) :
  endsWith s suffix = true <-> exists stem, s = stem +:+ suffix.
Proof.
  induction s as [|a s IH]; rewrite endsWith_unfold.
  - rewrite orb_false_r. split.
    + intros H%String.eqb_eq. subst. now exists "".
    + intros [stem H]. apply String.eqb_eq.
      destruct stem as [|b stem]; [easy|].
      change ("" = String b (stem +:+ suffix)) in H. discriminate.
  - rewrite orb_true_iff, IH. split.
    + intros [H%String.eqb_eq | [stem ->]];
        [subst; now exists "" | now exists (String a stem)].
    + intros [[|b stem] H].
      * left. now apply String.eqb_eq.
      * right. exists stem.
        change (String a s = String b (stem +:+ suffix)) in H. congruence.
Qed.

Lemma truthy_Some (v : option string) :
  truthy v = true -> v = Some (js_nullish v "") /\ js_nullish v "" <> "".
Proof.
  destruct v as [s|]; simpl; [|discriminate].
  intros H. split; [reflexivity|].
  intros ->. discriminate.
Qed.

(** ** Running an action step by step *)

Lemma after_nil {A} (o : Outcome A) : after [] o = o.
Proof. destruct o. reflexivity. Qed.

Lemma after_after {A} (es es' : list Effect) (o : Outcome A) :
  after es (after es' o) = after (es ++ es') o.
Proof. unfold after. cbn [result final emitted]. now rewrite app_assoc. Qed.

Lemma bind_run {A B} (m : M A) (k : A -> M B) (w w' : World) a es :
  m w = {| result := Ok a; final := w'; emitted := es |} ->
  bind m k w = after es (k a w').
Proof. intros H. unfold bind. rewrite H. reflexivity. Qed.

Lemma bind_throws {A B} (m : M A) (k : A -> M B) (w w' : World) err es :
  m w = {| result := Throw err; final := w'; emitted := es |} ->
  bind m k w = {| result := Throw err; final := w'; emitted := es |}.
Proof. intros H. unfold bind. rewrite H. reflexivity. Qed.

Lemma bind_get {B} (k : World -> M B) (w : World) : bind get k w = k w w.
Proof. rewrite (bind_run get k w w w []); [apply after_nil | reflexivity]. Qed.

Lemma bind_ret {A B} (a : A) (k : A -> M B) (w : World) :
  bind (ret a) k w = k a w.
Proof. rewrite (bind_run (ret a) k w w a []); [apply after_nil | reflexivity]. Qed.

Lemma bind_modify {B} (f : World -> World) (k : unit -> M B) (w : World) :
  bind (modify f) k w = k tt (f w).
Proof.
  rewrite (bind_run (modify f) k w (f w) tt []); [apply after_nil | reflexivity].
Qed.

Lemma bind_emit {B} (e : Effect) (k : unit -> M B) (w : World) :
  bind (emit e) k w = after [e] (k tt w).
Proof. now rewrite (bind_run (emit e) k w w tt [e]). Qed.

Lemma bind_throw {A B} (err : string) (k : A -> M B) (w : World) :
  bind (throw err) k w = throw err w.
Proof. now rewrite (bind_throws (throw err) k w w err []). Qed.

Lemma bind_bind {A B C} (m : M A) (k : A -> M B) (h : B -> M C) (w : World) :
  bind (bind m k) h w = bind m (fun a => bind (k a) h) w.
Proof.
  unfold bind. destruct (m w) as [[a|err] w' es]; cbn [result final emitted];
    [|reflexivity].
  destruct (k a w') as [[b|err] w'' es']; cbn [result final emitted];
    [|reflexivity].
  now rewrite app_assoc.
Qed.

Lemma run_ret {A} (a : A) (w : World) :
  ret a w = {| result := Ok a; final := w; emitted := [] |}.
Proof. reflexivity. Qed.

Lemma run_emit (e : Effect) (w : World) :
  emit e w = {| result := Ok tt; final := w; emitted := [e] |}.
Proof. reflexivity. Qed.

Lemma run_modify (f : World -> World) (w : World) :
  modify f w = {| result := Ok tt; final := f w; emitted := [] |}.
Proof. reflexivity. Qed.

Lemma run_throw {A} (err : string) (w : World) :
  @throw A err w = {| result := Throw err; final := w; emitted := [] |}.
Proof. reflexivity. Qed.

Lemma after_mk {A} (es es' : list Effect) (r : Result A) (w : World) :
  after es {| result := r; final := w; emitted := es' |} =
  {| result := r; final := w; emitted := es ++ es' |}.
Proof. reflexivity. Qed.

Create Rewrite HintDb run.
#[local] Hint Rewrite @bind_bind @bind_get @bind_ret @bind_modify @bind_emit
  @bind_throw @after_nil @after_after @after_mk @run_ret @run_emit @run_modify
  @run_throw : run.

Ltac run := autorewrite with run; cbn [result final emitted app].

(** ** Binary resolution *)

Lemma findBinary_run (w : World) :
  Formatter.findBinary w =
  {| result := Ok (resolvedPath w); final := w;
     emitted := resolutionEffects w |}.
Proof.
  unfold Formatter.findBinary, resolvedPath, resolutionEffects, configuredUsable.
  unfold bind at 1. cbn [get result final emitted].
  destruct (oxfmtServerBinPath (configService w)) as [bin|] eqn:Hbin;
    cbn [truthy js_nullish]; [|reflexivity].
  destruct (String.eqb bin "") eqn:Hempty; cbn [negb andb]; [reflexivity|].
  unfold bind, try_catch, Formatter.fs_access, bind, emit, get, ret, throw.
  cbn [result final emitted].
  destruct (fsAccessible w bin); reflexivity.
Qed.

Lemma activate_unresolved (w : World) :
  truthy (resolvedPath w) = false ->
  Formatter.activate w =
  {| result := Ok tt; final := w;
     emitted := resolutionEffects w ++
                [OutputError "oxfmt server binary not found."] |}.
Proof.
  intros H. unfold Formatter.activate. rewrite bind_get.
  rewrite (bind_run _ _ _ _ _ _ (findBinary_run w)).
  rewrite H. cbn [negb]. now run.
Qed.

Lemma resolutionEffects_no_session (w : World) :
  existsb buildsSession (resolutionEffects w) = false.
Proof.
  unfold resolutionEffects.
  destruct (truthy _); [|reflexivity].
  destruct (fsAccessible _ _); reflexivity.
Qed.

(** C4.  [findBinary] hands the configured path to the accessibility check
    first and at most once; when that path is unset, empty or not accessible
    the result is whatever [SERVER_PATH_DEV] holds, and the world is left as
    it was.  When no path comes out, [activate] logs
    "oxfmt server binary not found." and returns normally, with the world
    (and so the [client] variable) untouched and without constructing or
    starting a session. *)
Theorem binary_resolution_fallback (w : World) :
  let bin := oxfmtServerBinPath (configService w) in
  let found := Formatter.findBinary w in
  let activated := Formatter.activate w in
  accessedPaths (emitted found) =
    (if truthy bin then [js_nullish bin ""] else []) /\
  result found =
    Ok (if truthy bin && fsAccessible w (js_nullish bin "") then bin
        else processEnv w !! "SERVER_PATH_DEV") /\
  final found = w /\
  match result found with
  | Ok path =>
      if truthy path then True
      else result activated = Ok tt /\
           final activated = w /\
           last (emitted activated) =
             Some (OutputError "oxfmt server binary not found.") /\
           existsb buildsSession (emitted activated) = false
  | Throw _ => False
  end.
Proof.
  cbn zeta. rewrite findBinary_run. cbn [result final emitted].
  repeat split.
  - unfold resolutionEffects.
    destruct (truthy _); [|reflexivity].
    destruct (fsAccessible _ _); reflexivity.
  - destruct (truthy (resolvedPath w)) eqn:H; [exact I|].
    rewrite (activate_unresolved w H). cbn [result final emitted].
    repeat split.
    + apply last_snoc.
    + rewrite existsb_app, resolutionEffects_no_session. reflexivity.
Qed.

(** A configured path that is not accessible is tried once, reported, and
    the development path is returned. *)
Example findBinary_stale :
  Formatter.findBinary Sample.staleBinary =
  {| result := Ok (Some "/dev/oxfmt.js"); final := Sample.staleBinary;
     emitted := [FsAccess "/gone/oxfmt";
                 OutputError "Invalid bin path: /gone/oxfmt"] |}.
Proof. reflexivity. Qed.

(** Without any usable path the activation stops after the error. *)
Example activate_noBinary :
  Formatter.activate Sample.noBinary =
  {| result := Ok tt; final := Sample.noBinary;
     emitted := [FsAccess "/gone/oxfmt";
                 OutputError "Invalid bin path: /gone/oxfmt";
                 OutputError "oxfmt server binary not found."] |}.
Proof. reflexivity. Qed.

(** ** The language client object *)

Lemma pop_transport_run (w : World) :
  pop_transport w = {| result := Ok (nextOk w); final := popped w; emitted := [] |}.
Proof. unfold pop_transport, nextOk, popped. now destruct (transport w). Qed.

Lemma on_client_run {A} (k : LanguageClient -> M A) (w : World) c :
  client w = Some c -> on_client k w = k c w.
Proof. intros H. unfold on_client. rewrite bind_get, H. reflexivity. Qed.

Lemma bind_on_client {A B} (k : LanguageClient -> M A) (h : A -> M B)
    (w : World) c :
  client w = Some c -> bind (on_client k) h w = bind (k c) h w.
Proof. intros H. unfold bind. now rewrite (on_client_run _ _ _ H). Qed.

Lemma launch_run (w : World) c :
  client w = Some c ->
  launch w =
  if isRunning c then {| result := Ok tt; final := w; emitted := [] |}
  else if startFailed c then
    {| result := Throw "launch failed"; final := w; emitted := [] |}
  else if nextOk w then
    {| result := Ok tt;
       final := set_client (Some (set_clientState Running c)) (popped w);
       emitted := [] |}
  else
    {| result := Throw "launch failed";
       final := set_client (Some (set_clientState StartFailed c)) (popped w);
       emitted := [] |}.
Proof.
  intros H. unfold launch. rewrite (on_client_run _ _ _ H).
  unfold isRunning, startFailed.
  destruct (clientState c); try reflexivity;
    rewrite (bind_run _ _ _ _ _ _ (pop_transport_run w)), after_nil;
    destruct (nextOk w); try reflexivity;
    now rewrite bind_modify, run_throw.
Qed.

Lemma shutdown_run (w : World) c :
  client w = Some c ->
  shutdown w =
  if startFailed c then
    {| result := Throw "Client is not running and can't be stopped: startFailed";
       final := w; emitted := [] |}
  else
    {| result := Ok tt;
       final := if isRunning c
                then set_client (Some (set_clientState Stopped c)) w else w;
       emitted := [] |}.
Proof.
  intros H. unfold shutdown. rewrite (on_client_run _ _ _ H).
  unfold isRunning, startFailed. now destruct (clientState c).
Qed.

Lemma client_start_run (w : World) c :
  client w = Some c ->
  client_start w = after [ClientStart] (launch w).
Proof. intros H. unfold client_start. now rewrite bind_emit. Qed.

Lemma popped_client (w : World) : client (popped w) = client w.
Proof. unfold popped. now destruct (transport w). Qed.

Lemma popped_configService (w : World) : configService (popped w) = configService w.
Proof. unfold popped. now destruct (transport w). Qed.

(** ** Activation with a resolved binary *)

Lemma activate_resolved (w : World) :
  truthy (resolvedPath w) = true ->
  let path := js_nullish (resolvedPath w) "" in
  Formatter.activate w =
  after (resolutionEffects w ++
         [OutputInfo ("Using server binary at: " +:+ path);
          ClientNew Formatter.languageClientName])
        (when (enable (configService w)) client_start (registered w path)).
Proof.
  intros H path. unfold Formatter.activate. rewrite bind_get.
  rewrite (bind_run _ _ _ _ _ _ (findBinary_run w)).
  rewrite H. cbn [negb]. run.
  unfold push_subscriptions. run.
  rewrite <- (app_assoc (resolutionEffects w)). reflexivity.
Qed.

Lemma when_start_client (b : bool) (w : World) c :
  client w = Some c ->
  exists s,
    client (final (when b client_start w)) = Some (set_clientState s c) /\
    configService (final (when b client_start w)) = configService w.
Proof.
  intros H. destruct b; cbn [when].
  - rewrite (client_start_run _ _ H), (launch_run _ _ H).
    destruct (isRunning c) eqn:Hrun; [|destruct (startFailed c)].
    + exists Running. cbn. split; [|reflexivity]. rewrite H. f_equal.
      destruct c as [n so co []]; try discriminate. reflexivity.
    + exists (clientState c). cbn. rewrite H. split; [|reflexivity].
      now destruct c.
    + destruct (nextOk w); cbn.
      * exists Running. split; [reflexivity | apply popped_configService].
      * exists StartFailed. split; [reflexivity | apply popped_configService].
  - exists (clientState c). cbn. rewrite H. split; [|reflexivity]. now destruct c.
Qed.

Lemma serverEnv_lookup (w : World) (name : string) :
  Formatter.serverEnv w !! name = childVariable w name.
Proof.
  unfold Formatter.serverEnv, childVariable.
  destruct (String.eqb_spec name "PATH") as [->|Hpath]; cbn [andb].
  - destruct (truthy (nodePath (configService w))).
    + now rewrite lookup_insert_eq.
    + now rewrite lookup_insert_ne.
  - assert (Hskip : forall v (m : gmap string string),
              <["PATH" := v]> m !! name = m !! name)
      by (intros; now rewrite lookup_insert_ne).
    assert (Hrust : <["RUST_LOG" := js_or (processEnv w !! "RUST_LOG") "info"]>
                      (processEnv w) !! name =
                    if String.eqb name "RUST_LOG"
                    then Some (js_or (processEnv w !! "RUST_LOG") "info")
                    else processEnv w !! name).
    { destruct (String.eqb_spec name "RUST_LOG") as [->|Hrust].
      - now rewrite lookup_insert_eq.
      - now rewrite lookup_insert_ne. }
    destruct (truthy (nodePath (configService w))); [rewrite Hskip|]; exact Hrust.
Qed.

Lemma isNode_spec (path : string) :
  Formatter.isNode path = true <-> scriptPath path.
Proof.
  unfold Formatter.isNode, scriptPath.
  rewrite !orb_true_iff, !endsWith_spec. split.
  - intros [[[stem H] | [stem H]] | [stem H]]; exists stem; auto.
  - intros [stem [H | [H | H]]]; [left; left | left; right | right];
      now exists stem.
Qed.

(** C8.  When a path is resolved, [activate] constructs the session with one
    launch spec for [run] and [debug]: for a path ending in [.js], [.cjs] or
    [.mjs] the command is [node] with arguments [path; --lsp], otherwise the
    command is the path with the argument [--lsp].  In both shapes the
    environment is [process.env] with [RUST_LOG] set to its non-empty ambient
    value or else to [info], and, when a non-empty [nodePath] is configured,
    [PATH] set to that path, the platform's separator and the ambient
    [PATH]. *)
Theorem launch_spec_shape (w : World) (path : string) :
  result (Formatter.findBinary w) = Ok (Some path) ->
  path <> "" ->
  exists c,
    client (final (Formatter.activate w)) = Some c /\
    debug (serverOptions c) = run (serverOptions c) /\
    ((scriptPath path /\
      command (run (serverOptions c)) = "node" /\
      args (run (serverOptions c)) = [path; "--lsp"]) \/
     (~ scriptPath path /\
      command (run (serverOptions c)) = path /\
      args (run (serverOptions c)) = ["--lsp"])) /\
    forall name,
      env (options (run (serverOptions c))) !! name = childVariable w name.
Proof.
  intros Hfound Hpath. rewrite findBinary_run in Hfound.
  cbn [result] in Hfound. injection Hfound as Hres.
  assert (Htruthy : truthy (resolvedPath w) = true).
  { rewrite Hres. cbn. now destruct (String.eqb_spec path ""). }
  rewrite (activate_resolved w Htruthy). rewrite Hres. cbn [js_nullish].
  unfold after. cbn [final].
  destruct (when_start_client (enable (configService w)) (registered w path)
              (constructed w path) eq_refl) as [s [Hclient _]].
  exists (set_clientState s (constructed w path)). split; [exact Hclient|].
  cbn [set_clientState constructed serverOptions run debug].
  split; [reflexivity|]. split.
  - unfold Formatter.runExecutable.
    destruct (Formatter.isNode path) eqn:Hnode.
    + left. split; [now apply isNode_spec | now split].
    + right. split; [|now split].
      intros Hscript%isNode_spec. congruence.
  - intros name. rewrite <- serverEnv_lookup.
    unfold Formatter.runExecutable. now destruct (Formatter.isNode path).
Qed.

(** C8, worked: the configured binary of the sample world is launched
    directly. *)
Lemma launch_spec_shape_witness :
  exists c,
    client (final (Formatter.activate Sample.world)) = Some c /\
    debug (serverOptions c) = run (serverOptions c) /\
    ((scriptPath "/usr/local/bin/oxfmt" /\
      command (run (serverOptions c)) = "node" /\
      args (run (serverOptions c)) = ["/usr/local/bin/oxfmt"; "--lsp"]) \/
     (~ scriptPath "/usr/local/bin/oxfmt" /\
      command (run (serverOptions c)) = "/usr/local/bin/oxfmt" /\
      args (run (serverOptions c)) = ["--lsp"])) /\
    forall name,
      env (options (run (serverOptions c))) !! name =
      childVariable Sample.world name.
Proof.
  apply (launch_spec_shape Sample.world "/usr/local/bin/oxfmt").
  - reflexivity.
  - discriminate.
Defined.

(** ** Configuration requests *)

Lemma configurationItem_entry (w : World) (item : ConfigurationItem) :
  PullEntry w item (Formatter.configurationItem w item).
Proof.
  unfold Formatter.configurationItem.
  destruct (section item) as [s|] eqn:Hsection.
  - destruct (String.eqb_spec s "oxc_language_server") as [->|Hne]; cbn [negb].
    + destruct (scopeUri item) as [uri|] eqn:Hscope.
      * destruct (getWorkspaceConfig _ _) as [wc|] eqn:Hwc.
        -- now apply (pull_resolved w item uri wc).
        -- now apply (pull_unresolved w item uri).
      * now apply pull_no_scope.
    + apply pull_other_section. congruence.
  - apply pull_other_section. congruence.
Qed.

(** C2.  The answer to a configuration request has one entry per item, in the
    order of the items, and each entry is the one [PullEntry] describes for
    its item. *)
Theorem configuration_positional (w : World) (items : list ConfigurationItem) :
  length (Formatter.configuration w items) = length items /\
  Forall2 (PullEntry w) items (Formatter.configuration w items).
Proof.
  unfold Formatter.configuration. split; [apply length_map|].
  induction items as [|item items IH]; cbn [map]; constructor.
  - apply configurationItem_entry.
  - exact IH.
Qed.

(** ** Server messages *)

(** C3, as stated, fails: an error message is shown as an alert and is not
    written to the output channel. *)
Lemma error_message_not_logged :
  let effs :=
    emitted (Formatter.onShowMessage
               {| msgType := MessageType.Error; message := "disk full" |}
               Sample.world) in
  ~ (In (ShowErrorMessage "disk full") effs /\ logged "disk full" effs).
Proof.
  cbn. unfold logged. cbn. intros [_ [[H|[]] | [[H|[]] | [H|[]]]]]; discriminate.
Qed.

(** C3, amended.  An error message is shown as an error alert and nothing
    else happens; a debug message is written to the output channel at debug
    level and nothing else happens; a message of an unknown type is written
    to the output channel at info level and nothing else happens. *)
Theorem show_message_routing (w : World) (msg : string) (t : Z) :
  ~ (1 <= t <= 5)%Z ->
  Formatter.onShowMessage {| msgType := MessageType.Error; message := msg |} w =
    {| result := Ok tt; final := w; emitted := [ShowErrorMessage msg] |} /\
  Formatter.onShowMessage {| msgType := MessageType.Debug; message := msg |} w =
    {| result := Ok tt; final := w; emitted := [OutputDebug msg] |} /\
  Formatter.onShowMessage {| msgType := t; message := msg |} w =
    {| result := Ok tt; final := w; emitted := [OutputInfo msg] |}.
Proof.
  intros Ht. repeat split.
  unfold Formatter.onShowMessage, MessageType.Debug, MessageType.Log,
    MessageType.Info, MessageType.Warning, MessageType.Error.
  cbn [msgType message].
  repeat match goal with
         | |- context [(t =? ?n)%Z] => destruct (Z.eqb_spec t n); [lia|]
         end.
  reflexivity.
Qed.

(** C3, worked for the unknown type 9. *)
Lemma show_message_routing_witness :
  Formatter.onShowMessage
    {| msgType := MessageType.Error; message := "disk full" |} Sample.world =
    {| result := Ok tt; final := Sample.world;
       emitted := [ShowErrorMessage "disk full"] |} /\
  Formatter.onShowMessage
    {| msgType := MessageType.Debug; message := "disk full" |} Sample.world =
    {| result := Ok tt; final := Sample.world;
       emitted := [OutputDebug "disk full"] |} /\
  Formatter.onShowMessage {| msgType := 9; message := "disk full" |} Sample.world =
    {| result := Ok tt; final := Sample.world;
       emitted := [OutputInfo "disk full"] |}.
Proof. apply (show_message_routing Sample.world "disk full" 9). lia. Defined.

(** ** Restart *)

(** C10.  Without a session object [restartClient] shows the error alert
    "oxc client not found" and returns normally; nothing else is emitted (no
    start, stop or restart) and the world, the absent [client] included, is
    left as it was. *)
Theorem restartClient_without_client (w : World) :
  client w = None ->
  Formatter.restartClient w =
  {| result := Ok tt; final := w;
     emitted := [ShowErrorMessage "oxc client not found"] |}.
Proof.
  intros H. unfold Formatter.restartClient. rewrite bind_get, H. reflexivity.
Qed.

(** C10, worked on the sample world, which has no session. *)
Lemma restartClient_without_client_witness :
  Formatter.restartClient Sample.world =
  {| result := Ok tt; final := Sample.world;
     emitted := [ShowErrorMessage "oxc client not found"] |}.
Proof. apply (restartClient_without_client Sample.world). reflexivity. Defined.

(** ** Configuration changes *)

Lemma updateStatsBar_run (b : bool) (w : World) :
  exists w',
    Formatter.updateStatsBar b w =
      {| result := Ok tt; final := w'; emitted := [] |} /\
    client w' = client w /\
    configService w' = configService w /\
    transport w' = transport w /\
    processEnv w' = processEnv w.
Proof.
  unfold Formatter.updateStatsBar. rewrite bind_get.
  destruct (myStatusBarItem w) as [item|];
    unfold push_subscriptions; run; eexists; (split; [reflexivity|]);
    repeat split; reflexivity.
Qed.

Lemma client_sendNotification_run (method : string) (settings : Settings)
    (w : World) :
  client_sendNotification method settings w =
  {| result := if nextOk w then Ok tt else Throw "send failed";
     final := popped w;
     emitted := [ClientSendNotification method settings] |}.
Proof.
  unfold client_sendNotification. rewrite bind_emit.
  rewrite (bind_run _ _ _ _ _ _ (pop_transport_run w)), after_nil.
  now destruct (nextOk w).
Qed.

Lemma onConfigChange_run (event : ConfigurationChangeEvent) (w : World) :
  exists w1,
    client w1 = client w /\
    configService w1 = configService w /\
    transport w1 = transport w /\
    processEnv w1 = processEnv w /\
    Formatter.onConfigChange event w =
    match client w with
    | None => {| result := Ok tt; final := w1; emitted := [] |}
    | Some c =>
        let current := languageServerConfig (configService w) in
        let w2 := set_client (Some (set_initializationOptions current c)) w1 in
        after [SetInitializationOptions current; QueryConfigChange event]
          (if effectsWorkspaceConfigChange (configService w) event && isRunning c
           then client_sendNotification "workspace/didChangeConfiguration"
                  current w2
           else {| result := Ok tt; final := w2; emitted := [] |})
    end.
Proof.
  destruct (updateStatsBar_run (enable (configService w)) w)
    as (w1 & Hbar & Hclient & Hcs & Htr & Henv).
  exists w1. repeat (split; [assumption|]).
  unfold Formatter.onConfigChange. rewrite bind_get.
  rewrite (bind_run _ _ _ _ _ _ Hbar), after_nil, bind_get.
  rewrite Hclient. destruct (client w) as [c|] eqn:Hc; [|reflexivity].
  rewrite Hcs. unfold client_setInitializationOptions.
  rewrite bind_bind, bind_emit.
  rewrite (bind_on_client _ _ _ _ Hclient).
  rewrite bind_modify, bind_emit, bind_get, after_after.
  cbn [configService set_client app]. rewrite Hcs.
  destruct (effectsWorkspaceConfigChange (configService w) event);
    cbn [andb]; [|reflexivity].
  rewrite (on_client_run _
             (set_client (Some (set_initializationOptions
                (languageServerConfig (configService w)) c)) w1)
             (set_initializationOptions
                (languageServerConfig (configService w)) c) eq_refl).
  unfold isRunning. cbn [set_initializationOptions clientState].
  destruct (clientState c); reflexivity.
Qed.

Lemma boundOnConfigChange_same (event : ConfigurationChangeEvent) (w : World) :
  Formatter.boundOnConfigChange event w = Formatter.onConfigChange event w.
Proof. reflexivity. Qed.

(** C1.  [onConfigChange] sends exactly one notification,
    [workspace/didChangeConfiguration] with the current settings, when the
    change is relevant and the session variable holds a running session; it
    sends none when the change is irrelevant, when the session is not
    running, and when there is no session object. *)
Theorem config_push_gating (w : World) (event : ConfigurationChangeEvent) :
  notifications (emitted (Formatter.onConfigChange event w)) =
  if effectsWorkspaceConfigChange (configService w) event && sessionRunning w
  then [("workspace/didChangeConfiguration",
         languageServerConfig (configService w))]
  else [].
Proof.
  destruct (onConfigChange_run event w) as (w1 & _ & _ & _ & _ & ->).
  unfold sessionRunning.
  destruct (client w) as [c|]; [|now rewrite andb_false_r].
  cbn zeta.
  destruct (effectsWorkspaceConfigChange (configService w) event && isRunning c).
  - now rewrite client_sendNotification_run.
  - reflexivity.
Qed.

(** ** Start, stop and restart *)

Lemma try_catch_ok {A} (m : M A) (h : string -> M A) (w w' : World) a es :
  m w = {| result := Ok a; final := w'; emitted := es |} ->
  try_catch m h w = {| result := Ok a; final := w'; emitted := es |}.
Proof. intros H. unfold try_catch. rewrite H. reflexivity. Qed.

Lemma try_catch_throws {A} (m : M A) (h : string -> M A) (w w' : World) err es :
  m w = {| result := Throw err; final := w'; emitted := es |} ->
  try_catch m h w = after es (h err w').
Proof. intros H. unfold try_catch. rewrite H. reflexivity. Qed.

Lemma popped_set_client (x : option LanguageClient) (w : World) :
  popped (set_client x w) = set_client x (popped w).
Proof. unfold popped. cbn [set_client transport]. now destruct (transport w). Qed.

Lemma nextOk_set_client (x : option LanguageClient) (w : World) :
  nextOk (set_client x w) = nextOk w.
Proof. reflexivity. Qed.

Lemma isRunning_set_clientState (s : ClientState) (c : LanguageClient) :
  isRunning (set_clientState s c) =
  match s with Running => true | _ => false end.
Proof. reflexivity. Qed.

Lemma running_state (c : LanguageClient) :
  isRunning c = true -> set_clientState Running c = c.
Proof. destruct c as [? ? ? []]; now intros. Qed.

Lemma client_start_outcome (w : World) c :
  client w = Some c ->
  client_start w =
  if isRunning c then {| result := Ok tt; final := w; emitted := [ClientStart] |}
  else if startFailed c then
    {| result := Throw "launch failed"; final := w; emitted := [ClientStart] |}
  else if nextOk w then
    {| result := Ok tt;
       final := set_client (Some (set_clientState Running c)) (popped w);
       emitted := [ClientStart] |}
  else
    {| result := Throw "launch failed";
       final := set_client (Some (set_clientState StartFailed c)) (popped w);
       emitted := [ClientStart] |}.
Proof.
  intros H. rewrite (client_start_run _ _ H), (launch_run _ _ H).
  destruct (isRunning c); [reflexivity|].
  destruct (startFailed c); [reflexivity|]. now destruct (nextOk w).
Qed.

Lemma client_stop_outcome (w : World) c :
  client w = Some c ->
  client_stop w =
  if startFailed c then
    {| result := Throw "Client is not running and can't be stopped: startFailed";
       final := w; emitted := [ClientStop] |}
  else
    {| result := Ok tt;
       final := if isRunning c
                then set_client (Some (set_clientState Stopped c)) w else w;
       emitted := [ClientStop] |}.
Proof.
  intros H. unfold client_stop. rewrite bind_emit, (shutdown_run _ _ H).
  now destruct (startFailed c).
Qed.

Lemma running_not_failed (c : LanguageClient) :
  isRunning c = true -> startFailed c = false.
Proof. unfold isRunning, startFailed. now destruct (clientState c). Qed.

Lemma client_restart_outcome (w : World) c :
  client w = Some c ->
  isRunning c = true ->
  client_restart w =
  if nextOk w then
    {| result := Ok tt;
       final := set_client (Some (set_clientState Running c)) (popped w);
       emitted := [ClientRestart] |}
  else
    {| result := Throw "launch failed";
       final := set_client (Some (set_clientState StartFailed c)) (popped w);
       emitted := [ClientRestart] |}.
Proof.
  intros H Hrun. unfold client_restart. rewrite bind_emit.
  rewrite (bind_run _ _ w (set_client (Some (set_clientState Stopped c)) w)
             tt []).
  - rewrite after_nil.
    rewrite (launch_run (set_client (Some (set_clientState Stopped c)) w)
               (set_clientState Stopped c) eq_refl).
    cbn [isRunning startFailed set_clientState clientState].
    rewrite nextOk_set_client, popped_set_client.
    now destruct (nextOk w).
  - now rewrite (shutdown_run _ _ H), (running_not_failed _ Hrun), Hrun.
Qed.

Lemma restartClient_outcome (w : World) c :
  client w = Some c ->
  Formatter.restartClient w =
  if isRunning c then
    if nextOk w then
      {| result := Ok tt;
         final := set_client (Some (set_clientState Running c)) (popped w);
         emitted := [ClientRestart;
                     ShowInformationMessage "oxc server restarted."] |}
    else
      {| result := Ok tt;
         final := set_client (Some (set_clientState StartFailed c)) (popped w);
         emitted := [ClientRestart;
                     ClientError "Restarting client failed" "launch failed"] |}
  else if startFailed c then
    {| result := Ok tt; final := w;
       emitted := [ClientStart;
                   ClientError "Restarting client failed" "launch failed"] |}
  else
    if nextOk w then
      {| result := Ok tt;
         final := set_client (Some (set_clientState Running c)) (popped w);
         emitted := [ClientStart] |}
    else
      {| result := Ok tt;
         final := set_client (Some (set_clientState StartFailed c)) (popped w);
         emitted := [ClientStart;
                     ClientError "Restarting client failed" "launch failed"] |}.
Proof.
  intros H. unfold Formatter.restartClient. rewrite bind_get, H.
  destruct (isRunning c) eqn:Hrun.
  - destruct (nextOk w) eqn:Hok.
    + apply try_catch_ok.
      rewrite (bind_run _ _ w
                 (set_client (Some (set_clientState Running c)) (popped w))
                 tt [ClientRestart]).
      * reflexivity.
      * now rewrite (client_restart_outcome _ _ H Hrun), Hok.
    + rewrite (try_catch_throws _ _ w
                 (set_client (Some (set_clientState StartFailed c)) (popped w))
                 "launch failed" [ClientRestart]).
      * reflexivity.
      * apply bind_throws. now rewrite (client_restart_outcome _ _ H Hrun), Hok.
  - destruct (startFailed c) eqn:Hfailed.
    + rewrite (try_catch_throws _ _ w w "launch failed" [ClientStart]).
      * reflexivity.
      * now rewrite (client_start_outcome _ _ H), Hrun, Hfailed.
    + destruct (nextOk w) eqn:Hok.
      * apply try_catch_ok.
        now rewrite (client_start_outcome _ _ H), Hrun, Hfailed, Hok.
      * rewrite (try_catch_throws _ _ w
                   (set_client (Some (set_clientState StartFailed c)) (popped w))
                   "launch failed" [ClientStart]).
        -- reflexivity.
        -- now rewrite (client_start_outcome _ _ H), Hrun, Hfailed, Hok.
Qed.

Lemma restartClient_keeps_options (w : World) c :
  client w = Some c ->
  exists s,
    client (final (Formatter.restartClient w)) = Some (set_clientState s c).
Proof.
  intros H. rewrite (restartClient_outcome _ _ H).
  destruct (isRunning c), (startFailed c), (nextOk w);
    cbn [final set_client client]; try (eexists; reflexivity).
  all: exists (clientState c); rewrite H; now destruct c.
Qed.

(** C5.  On a constructed, never started session whose start succeeds,
    [restartClient] has the very outcome of [client.start()]: the same
    result, the same final world, the same effects; the session is running
    afterwards and no error is shown or logged.  And for any session [c'],
    [restartClient] calls [client.restart()] exactly when [c'] is running. *)
Theorem restart_unstarted_is_start (w : World) (c : LanguageClient)
    (w' : World) (c' : LanguageClient) :
  client w = Some c ->
  clientState c = Unstarted ->
  result (client_start w) = Ok tt ->
  client w' = Some c' ->
  Formatter.restartClient w = client_start w /\
  sessionRunning (final (Formatter.restartClient w)) = true /\
  existsb surfacesError (emitted (Formatter.restartClient w)) = false /\
  (In ClientRestart (emitted (Formatter.restartClient w')) <->
   isRunning c' = true).
Proof.
  intros H Hstate Hstart H'.
  assert (Hrun : isRunning c = false) by (unfold isRunning; now rewrite Hstate).
  assert (Hfailed : startFailed c = false)
    by (unfold startFailed; now rewrite Hstate).
  rewrite (client_start_outcome _ _ H), Hrun, Hfailed in Hstart |- *.
  rewrite (restartClient_outcome _ _ H), Hrun, Hfailed.
  destruct (nextOk w); [|discriminate]. repeat split.
  - rewrite (restartClient_outcome _ _ H').
    destruct (isRunning c'), (startFailed c'), (nextOk w'); cbn;
      intuition discriminate.
  - intros Hrun'. rewrite (restartClient_outcome _ _ H'), Hrun'.
    destruct (nextOk w'); now left.
Qed.

(** C5, worked: a fresh session in the sample world, and a running one. *)
Lemma restart_unstarted_is_start_witness :
  Formatter.restartClient (Sample.withSession Unstarted) =
    client_start (Sample.withSession Unstarted) /\
  sessionRunning
    (final (Formatter.restartClient (Sample.withSession Unstarted))) = true /\
  existsb surfacesError
    (emitted (Formatter.restartClient (Sample.withSession Unstarted))) = false /\
  (In ClientRestart
      (emitted (Formatter.restartClient (Sample.withSession Running))) <->
   isRunning (Sample.session Running) = true).
Proof.
  apply (restart_unstarted_is_start
           (Sample.withSession Unstarted) (Sample.session Unstarted)
           (Sample.withSession Running) (Sample.session Running));
    reflexivity.
Defined.

(** When the start fails, [restartClient] still returns normally: the failure
    is reported through [client.error] and the session is left in the state
    of a failed start. *)
Lemma restart_unstarted_start_fails (w : World) (c : LanguageClient) :
  client w = Some c ->
  isRunning c = false ->
  startFailed c = false ->
  nextOk w = false ->
  Formatter.restartClient w =
  {| result := Ok tt;
     final := set_client (Some (set_clientState StartFailed c)) (popped w);
     emitted := [ClientStart;
                 ClientError "Restarting client failed" "launch failed"] |}.
Proof.
  intros H Hrun Hfailed Hok.
  now rewrite (restartClient_outcome _ _ H), Hrun, Hfailed, Hok.
Qed.

(** ** Toggle *)

Lemma toggleClient_outcome (w : World) c :
  client w = Some c ->
  Formatter.toggleClient w =
  if isRunning c then
    if enable (configService w)
    then {| result := Ok tt; final := w; emitted := [] |}
    else client_stop w
  else
    if enable (configService w) then client_start w
    else {| result := Ok tt; final := w; emitted := [] |}.
Proof.
  intros H. unfold Formatter.toggleClient. rewrite bind_get, H.
  destruct (isRunning c), (enable (configService w)); reflexivity.
Qed.

Lemma toggleClient_without_client (w : World) :
  client w = None ->
  Formatter.toggleClient w = {| result := Ok tt; final := w; emitted := [] |}.
Proof.
  intros H. unfold Formatter.toggleClient. now rewrite bind_get, H.
Qed.

(** C6, as stated, fails: when the start that [toggleClient] attempts
    fails, the session is not running although the flag is set, after one
    invocation as after two. *)
Lemma toggle_failed_start_not_running :
  let w := Cases.launchFails Stopped in
  let once := final (Formatter.toggleClient w) in
  let twice := final (Formatter.toggleClient once) in
  ~ (sessionRunning twice = sessionRunning once /\
     (sessionRunning once = true <-> enable (configService w) = true)).
Proof.
  vm_compute. intros [_ [_ H]]. specialize (H eq_refl). discriminate.
Qed.

(** C6, amended.  For every world, a second [toggleClient] under the same
    enable flag leaves the world, the session included, exactly as the first
    one left it, and returns or throws as the first one did.  If there is a
    session object it is running after the first invocation exactly when the
    flag is set and that invocation returned normally (it throws when the
    start it attempts fails or had failed before, and the session is then
    not running); if there is no session object there is still none. *)
Theorem toggleClient_idempotent (w : World) :
  let once := Formatter.toggleClient w in
  let twice := Formatter.toggleClient (final once) in
  final twice = final once /\
  result twice = result once /\
  enable (configService (final once)) = enable (configService w) /\
  match client w with
  | Some _ =>
      sessionRunning (final once) =
      enable (configService w) && isOk (result once)
  | None => client (final once) = None
  end.
Proof.
  cbn zeta. destruct (client w) as [c|] eqn:H.
  - rewrite (toggleClient_outcome _ _ H).
    destruct (isRunning c) eqn:Hrun, (enable (configService w)) eqn:Hen.
    + cbn [final result]. rewrite (toggleClient_outcome _ _ H), Hrun, Hen.
      unfold sessionRunning. rewrite H, Hrun. auto.
    + rewrite (client_stop_outcome _ _ H), (running_not_failed _ Hrun), Hrun.
      cbn [final result].
      rewrite (toggleClient_outcome
                 (set_client (Some (set_clientState Stopped c)) w)
                 (set_clientState Stopped c) eq_refl).
      cbn [configService set_client isRunning set_clientState clientState].
      rewrite Hen. auto.
    + rewrite (client_start_outcome _ _ H), Hrun.
      destruct (startFailed c) eqn:Hfailed; [|destruct (nextOk w)];
        cbn [final result].
      * rewrite (toggleClient_outcome _ _ H), Hrun, Hen.
        rewrite (client_start_outcome _ _ H), Hrun, Hfailed.
        unfold sessionRunning. rewrite H, Hrun. auto.
      * rewrite (toggleClient_outcome
                   (set_client (Some (set_clientState Running c)) (popped w))
                   (set_clientState Running c) eq_refl).
        cbn [configService set_client isRunning set_clientState clientState].
        rewrite popped_configService, Hen. auto.
      * rewrite (toggleClient_outcome
                   (set_client (Some (set_clientState StartFailed c)) (popped w))
                   (set_clientState StartFailed c) eq_refl).
        cbn [configService set_client isRunning set_clientState clientState].
        rewrite popped_configService, Hen.
        rewrite (client_start_outcome
                   (set_client (Some (set_clientState StartFailed c)) (popped w))
                   (set_clientState StartFailed c) eq_refl).
        cbn [isRunning startFailed set_clientState clientState]. auto.
    + cbn [final result]. rewrite (toggleClient_outcome _ _ H), Hrun, Hen.
      unfold sessionRunning. rewrite H, Hrun. auto.
  - rewrite (toggleClient_without_client _ H). cbn [final].
    rewrite (toggleClient_without_client _ H). auto.
Qed.

(** A [toggleClient] whose start fails throws and leaves the session in the
    state of a failed start, in which a later toggle throws again without
    launching anything. *)
Lemma toggleClient_start_fails (w : World) (c : LanguageClient) :
  client w = Some c ->
  isRunning c = false ->
  startFailed c = false ->
  enable (configService w) = true ->
  nextOk w = false ->
  Formatter.toggleClient w =
  {| result := Throw "launch failed";
     final := set_client (Some (set_clientState StartFailed c)) (popped w);
     emitted := [ClientStart] |}.
Proof.
  intros H Hrun Hfailed Hen Hok.
  now rewrite (toggleClient_outcome _ _ H), Hrun, Hen,
    (client_start_outcome _ _ H), Hrun, Hfailed, Hok.
Qed.

(** ** Pending initialization options *)

(** C7.  With a session object, [onConfigChange] first stores the current
    language-server configuration as the session's [initializationOptions]
    and only then asks whether the change is relevant: these are its first
    two effects, whatever the answer and whether or not a notification
    follows.  The stored options are still there when it is done, and they
    are the options the session has after a following [restartClient]. *)
Theorem initializationOptions_refreshed (w : World) (c : LanguageClient)
    (event : ConfigurationChangeEvent) :
  client w = Some c ->
  let done := Formatter.onConfigChange event w in
  let current := languageServerConfig (configService w) in
  (exists rest,
     emitted done =
     SetInitializationOptions current :: QueryConfigChange event :: rest) /\
  client (final done) = Some (set_initializationOptions current c) /\
  (exists c',
     client (final (Formatter.restartClient (final done))) = Some c' /\
     initializationOptions (clientOptions c') = current).
Proof.
  intros H. cbn zeta.
  destruct (onConfigChange_run event w) as (w1 & _ & _ & _ & _ & ->).
  rewrite H. cbn zeta.
  set (current := languageServerConfig (configService w)).
  set (w2 := set_client (Some (set_initializationOptions current c)) w1).
  assert (Hfinal : forall o : Outcome unit,
            client (final o) = Some (set_initializationOptions current c) ->
            (exists rest,
               emitted (after [SetInitializationOptions current;
                               QueryConfigChange event] o) =
               SetInitializationOptions current :: QueryConfigChange event :: rest) /\
            client (final (after [SetInitializationOptions current;
                                  QueryConfigChange event] o)) =
              Some (set_initializationOptions current c) /\
            (exists c',
               client (final (Formatter.restartClient
                 (final (after [SetInitializationOptions current;
                                QueryConfigChange event] o)))) = Some c' /\
               initializationOptions (clientOptions c') = current)).
  { intros o Ho. split; [now exists (emitted o)|]. split; [exact Ho|].
    cbn [after final].
    destruct (restartClient_keeps_options _ _ Ho) as [s Hs].
    eexists. split; [exact Hs | reflexivity]. }
  apply Hfinal.
  destruct (effectsWorkspaceConfigChange (configService w) event && isRunning c).
  - rewrite client_sendNotification_run. cbn [final].
    now rewrite popped_client.
  - reflexivity.
Qed.

(** C7, worked: an irrelevant change reaching a stopped session. *)
Lemma initializationOptions_refreshed_witness :
  let done := Formatter.onConfigChange ["editor"] (Sample.withSession Stopped) in
  (exists rest,
     emitted done =
     SetInitializationOptions "{fmt:1}" :: QueryConfigChange ["editor"] :: rest) /\
  client (final done) =
    Some (set_initializationOptions "{fmt:1}" (Sample.session Stopped)) /\
  (exists c',
     client (final (Formatter.restartClient (final done))) = Some c' /\
     initializationOptions (clientOptions c') = "{fmt:1}").
Proof.
  apply (initializationOptions_refreshed
           (Sample.withSession Stopped) (Sample.session Stopped) ["editor"]).
  reflexivity.
Defined.

(** ** The two backends *)

Lemma activate_binds_handler (w : World) :
  truthy (resolvedPath w) = true ->
  onConfigChangeHandler (configService (final (Formatter.activate w))) =
  HandlerFormatter.
Proof.
  intros H. rewrite (activate_resolved w H). cbn [after final].
  destruct (when_start_client (enable (configService w))
              (registered w (js_nullish (resolvedPath w) ""))
              (constructed w (js_nullish (resolvedPath w) "")) eq_refl)
    as [s [_ ->]].
  reflexivity.
Qed.

(** With the formatter's kill-switch set, the commands and the fan-out
    handler do the linter's part only. *)
Lemma formatter_skipped (linterBinds : bool) (w : World)
    (event : ConfigurationChangeEvent) :
  Extension.notTrue w "SKIP_FORMATTER_TEST" = false ->
  let linter (entry : LinterEntry) :=
    if Extension.notTrue w "SKIP_LINTER_TEST" then [CallLinter entry] else [] in
  Extension.restartCommand w =
    {| result := Ok tt; final := w; emitted := linter LinterRestart |} /\
  Extension.onConfigChange event w =
    {| result := Ok tt; final := w;
       emitted := linter (LinterOnConfigChange event) |} /\
  Extension.deactivate w =
    {| result := Ok tt; final := w; emitted := linter LinterDeactivate |} /\
  emitted (Extension.toggleEnable w) = linter LinterToggle /\
  client (final (Extension.toggleEnable w)) = client w /\
  emitted (Extension.activate linterBinds w) = linter LinterActivate /\
  client (final (Extension.activate linterBinds w)) = client w.
Proof.
  intros Hskip. cbn zeta.
  unfold Extension.restartCommand, Extension.onConfigChange,
    Extension.deactivate, Extension.toggleEnable, Extension.activate,
    Extension.restartLinter, Extension.onConfigChangeLinter,
    Extension.deactivateLinter, Extension.toggleLinter,
    Extension.activateLinter, push_subscriptions, Extension.notTrue in *.
  run. cbn [processEnv set_configService set_subscriptions].
  destruct (processEnv w !! "SKIP_LINTER_TEST") as [v|];
    [destruct (negb (String.eqb v "true"))|]; cbn [when]; run;
    cbn [processEnv set_configService set_subscriptions]; rewrite ?Hskip;
    cbn [when]; run; try (repeat split; reflexivity);
    destruct linterBinds; cbn [when]; run;
    cbn [processEnv set_configService set_subscriptions]; rewrite ?Hskip;
    cbn [when]; run; repeat split; reflexivity.
Qed.

(** With the linter's kill-switch set, the commands and the fan-out handler
    are the formatter's functions, and [activate] goes on to the formatter's
    activation at once. *)
Lemma linter_skipped (linterBinds : bool) (w : World)
    (event : ConfigurationChangeEvent) :
  Extension.notTrue w "SKIP_LINTER_TEST" = false ->
  Extension.notTrue w "SKIP_FORMATTER_TEST" = true ->
  Extension.restartCommand w = Formatter.restartClient w /\
  Extension.onConfigChange event w = Formatter.onConfigChange event w /\
  Extension.deactivate w = Formatter.deactivate w /\
  Extension.activate linterBinds w =
    Formatter.activate
      (set_configService (set_handler HandlerExtension (configService w))
         (set_subscriptions
            (subscriptions w ++
             [DRestartCommand; DShowOutputCommand; DToggleEnable;
              DConfigService; DOutputChannelLint; DOutputChannelFormat;
              DWorkspaceFolders]) w)).
Proof.
  intros Hlinter Hformatter.
  unfold Extension.restartCommand, Extension.onConfigChange,
    Extension.deactivate, Extension.activate, push_subscriptions.
  run. unfold Extension.notTrue in *.
  cbn [processEnv set_configService set_subscriptions] in *.
  rewrite Hlinter. cbn [when]. run.
  cbn [processEnv set_configService set_subscriptions].
  rewrite Hformatter. cbn [when].
  repeat split.
Qed.

(** C9, at a failing input.  The sample world has no kill-switch set and a
    formatter binary that resolves.  The linter is activated in the same way
    whether or not the formatter's kill-switch is set, but after an
    activation with the formatter the configuration service's handler is the
    closure the formatter's [activate] bound, and a configuration-change
    event no longer reaches the linter; after an activation with the
    formatter switched off the same event does reach it. *)
Theorem formatter_activation_unhooks_linter (linterBinds : bool) :
  let event := ["oxc"] in
  let both := Extension.activate linterBinds Sample.world in
  let alone := Extension.activate linterBinds Sample.formatterSkipped in
  linterCalls (emitted both) = [LinterActivate] /\
  linterCalls (emitted alone) = [LinterActivate] /\
  onConfigChangeHandler (configService (final both)) = HandlerFormatter /\
  linterCalls (emitted (fireConfigChange event (final both))) = [] /\
  linterCalls (emitted (fireConfigChange event (final alone))) =
    [LinterOnConfigChange event].
Proof. destruct linterBinds; vm_compute; repeat split. Qed.

(** * Further properties *)

(** ** Restart *)

Lemma restartClient_absent (w : World) :
  client w = None ->
  Formatter.restartClient w =
  {| result := Ok tt; final := w;
     emitted := [ShowErrorMessage "oxc client not found"] |}.
Proof.
  intros H. unfold Formatter.restartClient. now rewrite bind_get, H.
Qed.

(** X1.  [restartClient] never throws: without a session it shows an alert,
    and a failing restart or start is caught and reported. *)
Theorem restartClient_never_throws (w : World) :
  result (Formatter.restartClient w) = Ok tt.
Proof.
  destruct (client w) as [c|] eqn:H.
  - rewrite (restartClient_outcome _ _ H).
    now destruct (isRunning c), (startFailed c), (nextOk w).
  - now rewrite (restartClient_absent _ H).
Qed.

(** X2.  With a session object, [restartClient] leaves the session running
    exactly when it launched the server and the launch went through: a
    session whose start had failed is not launched again and stays as it
    is.  An error is reported exactly when the session is not running
    afterwards, and "oxc server restarted." is shown exactly when a running
    session was relaunched. *)
Theorem restartClient_running_iff_launched (w : World) (c : LanguageClient) :
  client w = Some c ->
  sessionRunning (final (Formatter.restartClient w)) =
    negb (startFailed c) && nextOk w /\
  (if startFailed c then final (Formatter.restartClient w) = w else True) /\
  existsb surfacesError (emitted (Formatter.restartClient w)) =
    negb (sessionRunning (final (Formatter.restartClient w))) /\
  (In (ShowInformationMessage "oxc server restarted.")
      (emitted (Formatter.restartClient w)) <->
   isRunning c = true /\ nextOk w = true).
Proof.
  intros H. rewrite (restartClient_outcome _ _ H). unfold sessionRunning.
  destruct (isRunning c) eqn:Hrun.
  - rewrite (running_not_failed _ Hrun).
    destruct (nextOk w); cbn; intuition (try discriminate; auto).
  - destruct (startFailed c) eqn:Hfailed; [|destruct (nextOk w)];
      cbn [final emitted client set_client]; rewrite ?H, ?Hrun;
      cbn; intuition (try discriminate; auto).
Qed.

(** X2, worked: a session whose start had failed is not relaunched. *)
Lemma restartClient_running_iff_launched_witness :
  sessionRunning
    (final (Formatter.restartClient (Sample.withSession StartFailed))) =
    negb (startFailed (Sample.session StartFailed)) &&
    nextOk (Sample.withSession StartFailed) /\
  (if startFailed (Sample.session StartFailed)
   then final (Formatter.restartClient (Sample.withSession StartFailed)) =
        Sample.withSession StartFailed
   else True) /\
  existsb surfacesError
    (emitted (Formatter.restartClient (Sample.withSession StartFailed))) =
    negb (sessionRunning
            (final (Formatter.restartClient (Sample.withSession StartFailed)))) /\
  (In (ShowInformationMessage "oxc server restarted.")
      (emitted (Formatter.restartClient (Sample.withSession StartFailed))) <->
   isRunning (Sample.session StartFailed) = true /\
   nextOk (Sample.withSession StartFailed) = true).
Proof.
  apply (restartClient_running_iff_launched
           (Sample.withSession StartFailed) (Sample.session StartFailed)).
  reflexivity.
Defined.

(** X3.  [restartClient] relaunches what was resolved at activation: the
    session keeps its server options (the launch spec) and its client
    options, and the file system is not consulted again. *)
Theorem restartClient_keeps_launch_spec (w : World) (c : LanguageClient) :
  client w = Some c ->
  accessedPaths (emitted (Formatter.restartClient w)) = [] /\
  exists c',
    client (final (Formatter.restartClient w)) = Some c' /\
    serverOptions c' = serverOptions c /\
    clientOptions c' = clientOptions c.
Proof.
  intros H. split.
  - rewrite (restartClient_outcome _ _ H).
    now destruct (isRunning c), (startFailed c), (nextOk w).
  - destruct (restartClient_keeps_options _ _ H) as [s Hs].
    exists (set_clientState s c). now rewrite Hs.
Qed.

(** X3, worked on a stopped session of the sample world. *)
Lemma restartClient_keeps_launch_spec_witness :
  accessedPaths (emitted (Formatter.restartClient (Sample.withSession Stopped))) = [] /\
  exists c',
    client (final (Formatter.restartClient (Sample.withSession Stopped))) = Some c' /\
    serverOptions c' = serverOptions (Sample.session Stopped) /\
    clientOptions c' = clientOptions (Sample.session Stopped).
Proof.
  apply (restartClient_keeps_launch_spec
           (Sample.withSession Stopped) (Sample.session Stopped)).
  reflexivity.
Defined.

(** ** Deactivation *)


Lemma deactivate_run (w : World) :
  Formatter.deactivate w =
  match client w with
  | Some c =>
      if startFailed c then
        {| result :=
             Throw "Client is not running and can't be stopped: startFailed";
           final := w; emitted := [ClientStop] |}
      else
        {| result := Ok tt; final := set_client None w;
           emitted := [ClientStop] |}
  | None => {| result := Ok tt; final := w; emitted := [] |}
  end.
Proof.
  unfold Formatter.deactivate. rewrite bind_get.
  destruct (client w) as [c|] eqn:H; [|reflexivity].
  destruct (startFailed c) eqn:Hfailed.
  - apply bind_throws. now rewrite (client_stop_outcome _ _ H), Hfailed.
  - rewrite (bind_run _ _ w
               (if isRunning c
                then set_client (Some (set_clientState Stopped c)) w else w)
               tt [ClientStop]).
    + rewrite run_modify, after_mk. now destruct (isRunning c).
    + now rewrite (client_stop_outcome _ _ H), Hfailed.
Qed.


(** X5.  Without a session object, [toggleClient] does nothing and
    [onConfigChange] emits nothing, whatever the enable flag and the event:
    neither of them creates a session. *)
Theorem no_session_no_action (w : World) (event : ConfigurationChangeEvent) :
  client w = None ->
  Formatter.toggleClient w = {| result := Ok tt; final := w; emitted := [] |} /\
  result (Formatter.onConfigChange event w) = Ok tt /\
  emitted (Formatter.onConfigChange event w) = [] /\
  client (final (Formatter.onConfigChange event w)) = None.
Proof.
  intros H. split; [now apply toggleClient_without_client|].
  destruct (onConfigChange_run event w) as (w1 & Hc & _ & _ & _ & ->).
  rewrite H. cbn [result final emitted]. now rewrite Hc.
Qed.

(** X5, worked on the sample world, which has no session. *)
Lemma no_session_no_action_witness :
  Formatter.toggleClient Sample.world =
    {| result := Ok tt; final := Sample.world; emitted := [] |} /\
  result (Formatter.onConfigChange ["oxc"] Sample.world) = Ok tt /\
  emitted (Formatter.onConfigChange ["oxc"] Sample.world) = [] /\
  client (final (Formatter.onConfigChange ["oxc"] Sample.world)) = None.
Proof. apply (no_session_no_action Sample.world ["oxc"]). reflexivity. Defined.

(** ** The status bar item *)

Lemma updateStatsBar_final (b : bool) (w : World) :
  Formatter.updateStatsBar b w =
  {| result := Ok tt; final := final (Formatter.updateStatsBar b w);
     emitted := [] |}.
Proof.
  destruct (updateStatsBar_run b w) as (w' & -> & _). reflexivity.
Qed.

Lemma updateStatsBar_item (b : bool) (w : World) :
  myStatusBarItem (final (Formatter.updateStatsBar b w)) =
  Some {| sbToggles := match myStatusBarItem w with
                       | Some item => sbToggles item
                       | None => true
                       end;
          sbText := statusText b;
          sbBackgroundColor := statusColor b;
          sbShown := match myStatusBarItem w with
                     | Some item => sbShown item
                     | None => true
                     end |} /\
  subscriptions (final (Formatter.updateStatsBar b w)) =
    subscriptions w ++
    match myStatusBarItem w with Some _ => [] | None => [DStatusBarItem] end.
Proof.
  unfold Formatter.updateStatsBar. rewrite bind_get.
  destruct (myStatusBarItem w) as [item|] eqn:Hitem;
    unfold push_subscriptions; run;
    cbn [myStatusBarItem subscriptions set_myStatusBarItem set_subscriptions
         option_map sbToggles sbShown];
    rewrite ?Hitem; cbn [option_map]; rewrite ?app_nil_r;
    destruct b; split; reflexivity.
Qed.

(** X6.  After [updateStatsBar] there is a status bar item whose text and
    background colour are the ones of the enable flag passed in; an item
    made by this call is shown and carries the toggle command. *)
Theorem updateStatsBar_shows_flag (b : bool) (w : World) :
  exists item,
    myStatusBarItem (final (Formatter.updateStatsBar b w)) = Some item /\
    sbText item = statusText b /\
    sbBackgroundColor item = statusColor b /\
    match myStatusBarItem w with
    | Some old => sbShown item = sbShown old /\ sbToggles item = sbToggles old
    | None => sbShown item = true /\ sbToggles item = true
    end.
Proof.
  destruct (updateStatsBar_item b w) as [-> _]. eexists.
  split; [reflexivity|]. cbn [sbText sbBackgroundColor sbShown sbToggles].
  now destruct (myStatusBarItem w).
Qed.

(** X7.  The status bar item is created and registered with the extension
    context once: a call of [updateStatsBar] appends the item to the
    subscriptions only when there was none, and a call that follows another
    one leaves the world exactly as it would have been after itself alone. *)
Theorem updateStatsBar_created_once (b b' : bool) (w : World) :
  subscriptions (final (Formatter.updateStatsBar b w)) =
    subscriptions w ++
    match myStatusBarItem w with Some _ => [] | None => [DStatusBarItem] end /\
  final (Formatter.updateStatsBar b (final (Formatter.updateStatsBar b' w))) =
    final (Formatter.updateStatsBar b w).
Proof.
  split; [apply updateStatsBar_item|].
  unfold Formatter.updateStatsBar. rewrite !bind_get.
  destruct w as [penv plat fs up tr cs subs cl [item|]];
    unfold push_subscriptions; run;
    cbn [myStatusBarItem set_myStatusBarItem set_subscriptions option_map];
    run; cbn; reflexivity.
Qed.

(** ** Configuration changes, continued *)

Lemma popped_myStatusBarItem (w : World) :
  myStatusBarItem (popped w) = myStatusBarItem w.
Proof. unfold popped. now destruct (transport w). Qed.

Lemma onConfigChange_steps (event : ConfigurationChangeEvent) (w : World) :
  let w1 := final (Formatter.updateStatsBar (enable (configService w)) w) in
  client w1 = client w /\
  configService w1 = configService w /\
  transport w1 = transport w /\
  Formatter.onConfigChange event w =
  match client w with
  | None => {| result := Ok tt; final := w1; emitted := [] |}
  | Some c =>
      let current := languageServerConfig (configService w) in
      let w2 := set_client (Some (set_initializationOptions current c)) w1 in
      after [SetInitializationOptions current; QueryConfigChange event]
        (if effectsWorkspaceConfigChange (configService w) event && isRunning c
         then client_sendNotification "workspace/didChangeConfiguration"
                current w2
         else {| result := Ok tt; final := w2; emitted := [] |})
  end.
Proof.
  cbn zeta.
  destruct (updateStatsBar_run (enable (configService w)) w)
    as (w1 & Hbar & Hclient & Hcs & Htr & Henv).
  rewrite Hbar. cbn [final]. repeat (split; [assumption|]).
  unfold Formatter.onConfigChange. rewrite bind_get.
  rewrite (bind_run _ _ _ _ _ _ Hbar), after_nil, bind_get.
  rewrite Hclient. destruct (client w) as [c|] eqn:Hc; [|reflexivity].
  rewrite Hcs. unfold client_setInitializationOptions.
  rewrite bind_bind, bind_emit.
  rewrite (bind_on_client _ _ _ _ Hclient).
  rewrite bind_modify, bind_emit, bind_get, after_after.
  cbn [configService set_client app]. rewrite Hcs.
  destruct (effectsWorkspaceConfigChange (configService w) event);
    cbn [andb]; [|reflexivity].
  rewrite (on_client_run _
             (set_client (Some (set_initializationOptions
                (languageServerConfig (configService w)) c)) w1)
             (set_initializationOptions
                (languageServerConfig (configService w)) c) eq_refl).
  unfold isRunning. cbn [set_initializationOptions clientState].
  destruct (clientState c); reflexivity.
Qed.

(** X8.  Every configuration-change event refreshes the status bar item:
    after [onConfigChange] the item shows the text and colour of the current
    enable flag, whether or not the change is relevant, a session exists or
    a notification is sent. *)
Theorem onConfigChange_refreshes_status (w : World)
    (event : ConfigurationChangeEvent) :
  exists item,
    myStatusBarItem (final (Formatter.onConfigChange event w)) = Some item /\
    sbText item = statusText (enable (configService w)) /\
    sbBackgroundColor item = statusColor (enable (configService w)).
Proof.
  destruct (onConfigChange_steps event w) as (_ & _ & _ & ->).
  destruct (updateStatsBar_item (enable (configService w)) w) as [Hitem _].
  eexists. split.
  - destruct (client w) as [c|]; [|exact Hitem].
    cbn zeta.
    destruct (effectsWorkspaceConfigChange (configService w) event && isRunning c).
    + rewrite client_sendNotification_run. cbn [after final].
      rewrite popped_myStatusBarItem. exact Hitem.
    + exact Hitem.
  - split; reflexivity.
Qed.

(** X9.  [onConfigChange] throws only when it sends a notification and the
    send fails; it never starts, stops or restarts the session, which is
    running afterwards exactly when it was running before. *)
Theorem onConfigChange_failure_and_state (w : World)
    (event : ConfigurationChangeEvent) :
  result (Formatter.onConfigChange event w) =
    (if effectsWorkspaceConfigChange (configService w) event
        && sessionRunning w && negb (nextOk w)
     then Throw "send failed" else Ok tt) /\
  List.filter isLifecycle (emitted (Formatter.onConfigChange event w)) = [] /\
  sessionRunning (final (Formatter.onConfigChange event w)) = sessionRunning w.
Proof.
  destruct (onConfigChange_steps event w) as (Hclient & _ & Htr & ->).
  unfold sessionRunning at 1 3.
  destruct (client w) as [c|] eqn:Hc.
  - cbn zeta.
    destruct (effectsWorkspaceConfigChange (configService w) event);
      cbn [andb].
    + destruct (isRunning c) eqn:Hrun; cbn [andb].
      * rewrite client_sendNotification_run.
        cbn [after result final emitted app List.filter isLifecycle].
        unfold sessionRunning. rewrite popped_client.
        cbn [client set_client]. unfold nextOk at 1.
        cbn [transport set_client]. rewrite Htr. fold (nextOk w).
        repeat split; now destruct (nextOk w).
      * cbn [after result final emitted app List.filter isLifecycle].
        unfold sessionRunning. cbn [client set_client].
        repeat split; exact Hrun.
    + cbn [after result final emitted app List.filter isLifecycle].
      unfold sessionRunning. cbn [client set_client].
      repeat split.
  - rewrite andb_false_r. cbn [andb result final emitted List.filter].
    unfold sessionRunning. now rewrite Hclient.
Qed.

(** ** Server messages, continued *)

(** X10.  Every server message, whatever its type, goes to exactly one
    surface: the handler emits a single effect, which either writes the
    message to the output channel or shows it as an alert, never both; it
    does not throw and changes nothing. *)
Theorem show_message_one_surface (params : ShowMessageParams) (w : World) :
  exists e,
    Formatter.onShowMessage params w =
      {| result := Ok tt; final := w; emitted := [e] |} /\
    (logged (message params) [e] /\ ~ alerted (message params) [e] \/
     alerted (message params) [e] /\ ~ logged (message params) [e]).
Proof.
  unfold Formatter.onShowMessage, logged, alerted.
  repeat match goal with
         | |- context [(?a =? ?b)%Z] => destruct (a =? b)%Z
         end;
    eexists; (split; [reflexivity|]); cbn [In];
    intuition (try discriminate; auto).
Qed.

(** X11.  A server message is shown as an alert exactly when its type is
    Error, Warning or Info, and then as the alert of that kind: a warning
    alert exactly for Warning, an information alert exactly for Info. *)
Theorem show_message_alert_types (params : ShowMessageParams) (w : World) :
  let effs := emitted (Formatter.onShowMessage params w) in
  (alerted (message params) effs <->
   msgType params = MessageType.Error \/
   msgType params = MessageType.Warning \/
   msgType params = MessageType.Info) /\
  (In (ShowWarningMessage (message params)) effs <->
   msgType params = MessageType.Warning) /\
  (In (ShowInformationMessage (message params)) effs <->
   msgType params = MessageType.Info).
Proof.
  cbn zeta.
  unfold Formatter.onShowMessage, alerted, MessageType.Debug, MessageType.Log,
    MessageType.Info, MessageType.Warning, MessageType.Error.
  repeat match goal with
         | |- context [(?a =? ?b)%Z] => destruct (Z.eqb_spec a b)
         end;
    cbn [emitted emit In]; intuition (try discriminate; try lia; auto).
Qed.

(** ** Binary resolution, continued *)

(** X12.  The only thing [findBinary] writes to the output channel is
    "Invalid bin path: ..." for the configured path, and it writes it exactly
    when a non-empty path is configured and fails the accessibility check. *)
Theorem findBinary_reports_stale_path (w : World) :
  let bin := oxfmtServerBinPath (configService w) in
  let path := js_nullish bin "" in
  List.filter isChannelWrite (emitted (Formatter.findBinary w)) =
  if truthy bin && negb (fsAccessible w path)
  then [OutputError ("Invalid bin path: " +:+ path)] else [].
Proof.
  cbn zeta. rewrite findBinary_run. cbn [emitted]. unfold resolutionEffects.
  destruct (truthy (oxfmtServerBinPath (configService w)));
    [destruct (fsAccessible w _)|]; reflexivity.
Qed.

(** ** The server environment *)

(** X13.  The environment handed to the server process keeps every ambient
    variable, and its [RUST_LOG] is always set to a non-empty value. *)
Theorem serverEnv_keeps_ambient (w : World) :
  dom (processEnv w) ⊆ dom (Formatter.serverEnv w) /\
  exists level,
    Formatter.serverEnv w !! "RUST_LOG" = Some level /\ level <> "".
Proof.
  split.
  - intros name. rewrite !elem_of_dom, serverEnv_lookup. unfold childVariable.
    intros Hname.
    destruct (String.eqb name "PATH" && truthy (nodePath (configService w)));
      [eauto|].
    destruct (String.eqb name "RUST_LOG"); eauto.
  - rewrite serverEnv_lookup. unfold childVariable. cbn [String.eqb andb].
    eexists. split; [reflexivity|].
    destruct (processEnv w !! "RUST_LOG") as [level|]; cbn [js_or];
      [|discriminate].
    destruct (String.eqb_spec level ""); [discriminate | assumption].
Qed.

(** ** Activation, continued *)

Lemma resolutionEffects_no_lifecycle (w : World) :
  List.filter isLifecycle (resolutionEffects w) = [].
Proof.
  unfold resolutionEffects.
  destruct (truthy _); [|reflexivity].
  destruct (fsAccessible _ _); reflexivity.
Qed.

Lemma popped_subscriptions (w : World) :
  subscriptions (popped w) = subscriptions w.
Proof. unfold popped. now destruct (transport w). Qed.

Lemma found_resolved (w : World) (path : string) :
  result (Formatter.findBinary w) = Ok (Some path) ->
  path <> "" ->
  truthy (resolvedPath w) = true /\ js_nullish (resolvedPath w) "" = path.
Proof.
  intros Hfound Hpath. rewrite findBinary_run in Hfound.
  cbn [result] in Hfound. injection Hfound as ->. cbn.
  split; [|reflexivity]. now destruct (String.eqb_spec path "").
Qed.

Lemma start_after_registration (w : World) (path : string) :
  client_start (registered w path) =
  if nextOk w then
    {| result := Ok tt;
       final := set_client
                  (Some (set_clientState Running (constructed w path)))
                  (popped (registered w path));
       emitted := [ClientStart] |}
  else
    {| result := Throw "launch failed";
       final := set_client
                  (Some (set_clientState StartFailed (constructed w path)))
                  (popped (registered w path));
       emitted := [ClientStart] |}.
Proof.
  now rewrite (client_start_outcome (registered w path) (constructed w path)
                 eq_refl).
Qed.

(** X14.  An activation with a resolved binary always leaves a session
    object behind.  It calls [client.start()] exactly when the extension is
    enabled, the session is running afterwards exactly when it is enabled
    and the launch succeeds, and [activate] throws exactly when it is
    enabled and the launch fails. *)
Theorem activate_outcome (w : World) (path : string) :
  result (Formatter.findBinary w) = Ok (Some path) ->
  path <> "" ->
  let activated := Formatter.activate w in
  result activated =
    (if enable (configService w) && negb (nextOk w)
     then Throw "launch failed" else Ok tt) /\
  sessionRunning (final activated) = enable (configService w) && nextOk w /\
  List.filter isLifecycle (emitted activated) =
    (if enable (configService w) then [ClientStart] else []) /\
  exists c, client (final activated) = Some c.
Proof.
  intros Hfound Hpath. cbn zeta.
  destruct (found_resolved _ _ Hfound Hpath) as [Htruthy Hpath'].
  rewrite (activate_resolved w Htruthy), Hpath'.
  cbn [after result final emitted].
  rewrite !List.filter_app, resolutionEffects_no_lifecycle.
  cbn [app List.filter isLifecycle].
  destruct (enable (configService w)); cbn [when andb].
  - rewrite start_after_registration. unfold sessionRunning.
    destruct (nextOk w); cbn [result final emitted negb client set_client
                               List.filter isLifecycle].
    + repeat split. eexists; reflexivity.
    + repeat split. eexists; reflexivity.
  - cbn. repeat split. eexists; reflexivity.
Qed.

(** X14, worked: the sample world is enabled and its launch succeeds. *)
Lemma activate_outcome_witness :
  let activated := Formatter.activate Sample.world in
  result activated =
    (if enable (configService Sample.world) && negb (nextOk Sample.world)
     then Throw "launch failed" else Ok tt) /\
  sessionRunning (final activated) =
    enable (configService Sample.world) && nextOk Sample.world /\
  List.filter isLifecycle (emitted activated) =
    (if enable (configService Sample.world) then [ClientStart] else []) /\
  exists c, client (final activated) = Some c.
Proof.
  apply (activate_outcome Sample.world "/usr/local/bin/oxfmt").
  - reflexivity.
  - discriminate.
Defined.

(** X15.  The session that an activation constructs is named "oxc", starts
    from the current language-server configuration as its initialization
    options, and serves the files of scheme [file] whose extension is one of
    the eleven supported ones; the activation appends exactly two entries to
    the context's subscriptions, the notification handler and the
    file-deletion handler, in this order. *)
Theorem activate_registrations (w : World) (path : string) :
  result (Formatter.findBinary w) = Ok (Some path) ->
  path <> "" ->
  let activated := Formatter.activate w in
  subscriptions (final activated) =
    subscriptions w ++ [DNotification; DDeleteFiles] /\
  exists c,
    client (final activated) = Some c /\
    clientName c = "oxc" /\
    initializationOptions (clientOptions c) =
      languageServerConfig (configService w) /\
    documentSelector (clientOptions c) =
      [ {| pattern := "**/*.{astro,cjs,cts,js,jsx,mjs,mts,svelte,ts,tsx,vue}";
           scheme := "file" |} ].
Proof.
  intros Hfound Hpath. cbn zeta.
  destruct (found_resolved _ _ Hfound Hpath) as [Htruthy Hpath'].
  rewrite (activate_resolved w Htruthy), Hpath'. cbn [after final].
  destruct (enable (configService w)); cbn [when].
  - rewrite start_after_registration.
    destruct (nextOk w); cbn [final subscriptions client set_client];
      rewrite ?popped_subscriptions, ?popped_client;
      cbn [registered subscriptions client set_client set_configService
           set_subscriptions];
      rewrite <- app_assoc; (split; [reflexivity|]);
      eexists; (split; [reflexivity|]); repeat split.
  - cbn [ret final registered subscriptions client set_client
         set_configService set_subscriptions].
    rewrite <- app_assoc. split; [reflexivity|].
    eexists. split; [reflexivity|]. repeat split.
Qed.

(** X15, worked on the sample world. *)
Lemma activate_registrations_witness :
  let activated := Formatter.activate Sample.world in
  subscriptions (final activated) =
    subscriptions Sample.world ++ [DNotification; DDeleteFiles] /\
  exists c,
    client (final activated) = Some c /\
    clientName c = "oxc" /\
    initializationOptions (clientOptions c) =
      languageServerConfig (configService Sample.world) /\
    documentSelector (clientOptions c) =
      [ {| pattern := "**/*.{astro,cjs,cts,js,jsx,mjs,mts,svelte,ts,tsx,vue}";
           scheme := "file" |} ].
Proof.
  apply (activate_registrations Sample.world "/usr/local/bin/oxfmt").
  - reflexivity.
  - discriminate.
Defined.

(** X16.  A failed first launch is final for its session: when an enabled
    activation throws because the launch failed, the session object is there
    in the state of a failed start, and a following [restartClient] launches
    nothing, even if a launch would now succeed.  It calls [client.start()],
    reports the rejection, returns normally and leaves the world as it was,
    the session not running. *)
Theorem failed_activation_not_retried (w : World) (path : string) :
  result (Formatter.findBinary w) = Ok (Some path) ->
  path <> "" ->
  enable (configService w) = true ->
  nextOk w = false ->
  let activated := Formatter.activate w in
  let retried := Formatter.restartClient (final activated) in
  result activated = Throw "launch failed" /\
  client (final activated) =
    Some (set_clientState StartFailed (constructed w path)) /\
  retried =
    {| result := Ok tt; final := final activated;
       emitted := [ClientStart;
                   ClientError "Restarting client failed" "launch failed"] |} /\
  sessionRunning (final retried) = false.
Proof.
  intros Hfound Hpath Hen Hok. cbn zeta.
  destruct (found_resolved _ _ Hfound Hpath) as [Htruthy Hpath'].
  rewrite (activate_resolved w Htruthy), Hpath', Hen. cbn [when].
  rewrite start_after_registration, Hok. cbn [after result final].
  split; [reflexivity|]. split; [reflexivity|].
  match goal with
  | |- context [Formatter.restartClient ?x] =>
      rewrite (restartClient_outcome x
                 (set_clientState StartFailed (constructed w path)) eq_refl)
  end.
  cbn [isRunning startFailed set_clientState clientState final].
  split; reflexivity.
Qed.

(** X16, worked: the first launch fails, the second would succeed. *)
Lemma failed_activation_not_retried_witness :
  let activated := Formatter.activate Cases.flaky in
  let retried := Formatter.restartClient (final activated) in
  result activated = Throw "launch failed" /\
  client (final activated) =
    Some (set_clientState StartFailed
            (constructed Cases.flaky "/usr/local/bin/oxfmt")) /\
  retried =
    {| result := Ok tt; final := final activated;
       emitted := [ClientStart;
                   ClientError "Restarting client failed" "launch failed"] |} /\
  sessionRunning (final retried) = false.
Proof.
  apply (failed_activation_not_retried Cases.flaky "/usr/local/bin/oxfmt");
    [reflexivity | discriminate | reflexivity | reflexivity].
Defined.

(** ** Toggle, continued *)

(** X17.  [toggleClient] makes at most one call on the session and nothing
    else: [client.stop()] exactly when the session is running and the
    extension is disabled, [client.start()] exactly when the session is not
    running and the extension is enabled; it never restarts. *)
Theorem toggleClient_calls (w : World) :
  emitted (Formatter.toggleClient w) =
  match client w with
  | Some c =>
      if isRunning c
      then if enable (configService w) then [] else [ClientStop]
      else if enable (configService w) then [ClientStart] else []
  | None => []
  end.
Proof.
  destruct (client w) as [c|] eqn:H.
  - rewrite (toggleClient_outcome _ _ H).
    destruct (isRunning c) eqn:Hrun, (enable (configService w));
      try reflexivity.
    + rewrite (client_stop_outcome _ _ H). now destruct (startFailed c).
    + rewrite (client_start_outcome _ _ H), Hrun.
      now destruct (startFailed c), (nextOk w).
  - now rewrite (toggleClient_without_client _ H).
Qed.

Lemma toggleClient_frame (w : World) :
  configService (final (Formatter.toggleClient w)) = configService w /\
  (result (Formatter.toggleClient w) = Ok tt ->
   forall c, client w = Some c ->
   sessionRunning (final (Formatter.toggleClient w)) = enable (configService w)).
Proof.
  destruct (client w) as [c|] eqn:H.
  - rewrite (toggleClient_outcome _ _ H). unfold sessionRunning.
    destruct (isRunning c) eqn:Hrun, (enable (configService w)) eqn:Hen.
    + cbn [final]. rewrite H, Hrun. auto.
    + rewrite (client_stop_outcome _ _ H), (running_not_failed _ Hrun), Hrun.
      cbn. auto.
    + rewrite (client_start_outcome _ _ H), Hrun.
      destruct (startFailed c); [|destruct (nextOk w)];
        cbn [final result configService set_client client];
        rewrite ?popped_configService; split; auto; discriminate.
    + cbn [final]. rewrite H, Hrun. auto.
  - rewrite (toggleClient_without_client _ H). split; [reflexivity|].
    intros _ c Hc. discriminate.
Qed.

Lemma toggleEnable_run (w : World) :
  let flipped :=
    set_configService
      (set_enable (negb (enable (configService w))) (configService w)) w in
  Extension.toggleEnable w =
  after (if Extension.notTrue w "SKIP_LINTER_TEST"
         then [CallLinter LinterToggle] else [])
        (if Extension.notTrue w "SKIP_FORMATTER_TEST"
         then Formatter.toggleClient flipped
         else {| result := Ok tt; final := flipped; emitted := [] |}).
Proof.
  cbn zeta. unfold Extension.toggleEnable, Extension.toggleLinter.
  run. unfold Extension.notTrue.
  cbn [processEnv set_configService].
  destruct (processEnv w !! "SKIP_LINTER_TEST") as [v|];
    [destruct (negb (String.eqb v "true"))|]; cbn [when]; run;
    cbn [processEnv set_configService];
    (destruct (processEnv w !! "SKIP_FORMATTER_TEST") as [v'|];
     [destruct (negb (String.eqb v' "true"))|]); cbn [when]; run;
    reflexivity.
Qed.

(** X18.  With the formatter not kill-switched and a session object, a
    toggle command that returns normally leaves the session running exactly
    when the flag it has just written is set, that is, when the extension
    was disabled before. *)
Theorem toggleEnable_session_follows_flag (w : World) (c : LanguageClient) :
  Extension.notTrue w "SKIP_FORMATTER_TEST" = true ->
  client w = Some c ->
  result (Extension.toggleEnable w) = Ok tt ->
  sessionRunning (final (Extension.toggleEnable w)) =
  negb (enable (configService w)).
Proof.
  intros Hformatter H. rewrite toggleEnable_run, Hformatter.
  cbn [after result final]. intros Hok.
  now rewrite (proj2 (toggleClient_frame _) Hok c H).
Qed.

(** X18, worked: the command stops the running session of the sample
    world, which is enabled. *)
Lemma toggleEnable_session_follows_flag_witness :
  sessionRunning (final (Extension.toggleEnable (Sample.withSession Running))) =
  negb (enable (configService (Sample.withSession Running))).
Proof.
  apply (toggleEnable_session_follows_flag
           (Sample.withSession Running) (Sample.session Running));
    reflexivity.
Defined.

(** X19.  A backend that is disabled in the settings is constructed but not
    started: after such an activation the session is unstarted, and the
    toggle command, which enables the extension, starts it. *)
Theorem disabled_activation_then_toggle (w : World) (path : string) :
  result (Formatter.findBinary w) = Ok (Some path) ->
  path <> "" ->
  enable (configService w) = false ->
  Extension.notTrue w "SKIP_FORMATTER_TEST" = true ->
  nextOk w = true ->
  let activated := Formatter.activate w in
  let toggled := Extension.toggleEnable (final activated) in
  result activated = Ok tt /\
  client (final activated) = Some (constructed w path) /\
  result toggled = Ok tt /\
  sessionRunning (final toggled) = true.
Proof.
  intros Hfound Hpath Hen Hformatter Hok. cbn zeta.
  destruct (found_resolved _ _ Hfound Hpath) as [Htruthy Hpath'].
  rewrite (activate_resolved w Htruthy), Hpath', Hen.
  cbn [when ret after result final]. split; [reflexivity|].
  split; [reflexivity|].
  rewrite toggleEnable_run.
  change (Extension.notTrue (registered w path) "SKIP_FORMATTER_TEST")
    with (Extension.notTrue w "SKIP_FORMATTER_TEST").
  rewrite Hformatter. cbn [after result final].
  match goal with
  | |- context [Formatter.toggleClient ?x] =>
      rewrite (toggleClient_outcome x (constructed w path) eq_refl)
  end.
  cbn [isRunning constructed clientState configService set_configService
       registered set_enable set_handler enable].
  rewrite Hen. cbn [negb].
  match goal with
  | |- context [client_start ?x] =>
      rewrite (client_start_outcome x (constructed w path) eq_refl);
      change (nextOk x) with (nextOk w)
  end.
  cbn [isRunning startFailed constructed clientState]. rewrite Hok.
  split; reflexivity.
Qed.

(** X19, worked on the sample world with the extension disabled. *)
Lemma disabled_activation_then_toggle_witness :
  let activated := Formatter.activate Cases.disabled in
  let toggled := Extension.toggleEnable (final activated) in
  result activated = Ok tt /\
  client (final activated) =
    Some (constructed Cases.disabled "/usr/local/bin/oxfmt") /\
  result toggled = Ok tt /\
  sessionRunning (final toggled) = true.
Proof.
  apply (disabled_activation_then_toggle Cases.disabled "/usr/local/bin/oxfmt");
    [reflexivity | discriminate | reflexivity | reflexivity | reflexivity].
Defined.

(** ** The two backends, continued *)

(** X20.  With neither kill-switch set, every fanned-out entry point calls
    the linter first and then runs the formatter's function: the restart
    command, the change handler, [deactivate], and [activate], whose
    formatter part sees the subscriptions of the command registrations and
    the handler bound so far. *)
Theorem fan_out_linter_first (linterBinds : bool) (w : World)
    (event : ConfigurationChangeEvent) :
  Extension.notTrue w "SKIP_LINTER_TEST" = true ->
  Extension.notTrue w "SKIP_FORMATTER_TEST" = true ->
  Extension.restartCommand w =
    after [CallLinter LinterRestart] (Formatter.restartClient w) /\
  Extension.onConfigChange event w =
    after [CallLinter (LinterOnConfigChange event)]
      (Formatter.onConfigChange event w) /\
  Extension.deactivate w =
    after [CallLinter LinterDeactivate] (Formatter.deactivate w) /\
  Extension.activate linterBinds w =
    after [CallLinter LinterActivate]
      (Formatter.activate
         (set_configService
            (set_handler
               (if linterBinds then HandlerLinter else HandlerExtension)
               (configService w))
            (set_subscriptions
               (subscriptions w ++
                [DRestartCommand; DShowOutputCommand; DToggleEnable;
                 DConfigService; DOutputChannelLint; DOutputChannelFormat;
                 DWorkspaceFolders]) w))).
Proof.
  intros Hlinter Hformatter.
  unfold Extension.restartCommand, Extension.onConfigChange,
    Extension.deactivate, Extension.activate, Extension.restartLinter,
    Extension.onConfigChangeLinter, Extension.deactivateLinter,
    Extension.activateLinter, push_subscriptions.
  run. unfold Extension.notTrue in *.
  cbn [processEnv set_configService set_subscriptions] in *.
  rewrite Hlinter. cbn [when]. run.
  cbn [processEnv set_configService set_subscriptions].
  rewrite Hformatter. cbn [when]. repeat split.
  destruct linterBinds; cbn [when]; run;
    cbn [processEnv set_configService set_subscriptions];
    rewrite Hformatter; reflexivity.
Qed.

(** X20, worked on the sample world, where no kill-switch is set. *)
Lemma fan_out_linter_first_witness :
  Extension.restartCommand Sample.world =
    after [CallLinter LinterRestart] (Formatter.restartClient Sample.world) /\
  Extension.onConfigChange ["oxc"] Sample.world =
    after [CallLinter (LinterOnConfigChange ["oxc"])]
      (Formatter.onConfigChange ["oxc"] Sample.world) /\
  Extension.deactivate Sample.world =
    after [CallLinter LinterDeactivate] (Formatter.deactivate Sample.world) /\
  Extension.activate true Sample.world =
    after [CallLinter LinterActivate]
      (Formatter.activate
         (set_configService
            (set_handler HandlerLinter (configService Sample.world))
            (set_subscriptions
               (subscriptions Sample.world ++
                [DRestartCommand; DShowOutputCommand; DToggleEnable;
                 DConfigService; DOutputChannelLint; DOutputChannelFormat;
                 DWorkspaceFolders]) Sample.world))).
Proof.
  apply (fan_out_linter_first true Sample.world ["oxc"]); reflexivity.
Defined.

(** X21.  With the formatter's kill-switch set, no top-level entry point
    touches the formatter: the restart and toggle commands, the change
    handler, [activate] and [deactivate] leave the session variable and the
    status bar item as they were and emit nothing but calls of the linter. *)
Theorem formatter_kill_switch (linterBinds : bool) (w : World)
    (event : ConfigurationChangeEvent) :
  Extension.notTrue w "SKIP_FORMATTER_TEST" = false ->
  Forall (fun o : Outcome unit =>
            client (final o) = client w /\
            myStatusBarItem (final o) = myStatusBarItem w /\
            length (linterCalls (emitted o)) = length (emitted o))
    [Extension.restartCommand w; Extension.toggleEnable w;
     Extension.onConfigChange event w; Extension.activate linterBinds w;
     Extension.deactivate w].
Proof.
  intros Hskip.
  unfold Extension.restartCommand, Extension.onConfigChange,
    Extension.deactivate, Extension.toggleEnable, Extension.activate,
    Extension.restartLinter, Extension.onConfigChangeLinter,
    Extension.deactivateLinter, Extension.toggleLinter,
    Extension.activateLinter, push_subscriptions, Extension.notTrue in *.
  run. cbn [processEnv set_configService set_subscriptions].
  destruct (processEnv w !! "SKIP_LINTER_TEST") as [v|];
    [destruct (negb (String.eqb v "true"))|]; cbn [when]; run;
    cbn [processEnv set_configService set_subscriptions]; rewrite ?Hskip;
    cbn [when]; run;
    try (destruct linterBinds; cbn [when]; run;
         cbn [processEnv set_configService set_subscriptions]; rewrite ?Hskip;
         cbn [when]; run);
    repeat constructor.
Qed.

(** X21, worked on the sample world with the formatter's kill-switch set. *)
Lemma formatter_kill_switch_witness :
  Forall (fun o : Outcome unit =>
            client (final o) = client Sample.formatterSkipped /\
            myStatusBarItem (final o) = myStatusBarItem Sample.formatterSkipped /\
            length (linterCalls (emitted o)) = length (emitted o))
    [Extension.restartCommand Sample.formatterSkipped;
     Extension.toggleEnable Sample.formatterSkipped;
     Extension.onConfigChange ["oxc"] Sample.formatterSkipped;
     Extension.activate true Sample.formatterSkipped;
     Extension.deactivate Sample.formatterSkipped].
Proof.
  apply (formatter_kill_switch true Sample.formatterSkipped ["oxc"]).
  reflexivity.
Defined.

Lemma linterCalls_app (es es' : list Effect) :
  linterCalls (es ++ es') = linterCalls es ++ linterCalls es'.
Proof.
  induction es as [|e es IH]; [reflexivity|].
  destruct e; cbn [app linterCalls]; now rewrite ?IH.
Qed.

Lemma resolutionEffects_no_linter (w : World) :
  linterCalls (resolutionEffects w) = [].
Proof.
  unfold resolutionEffects.
  destruct (truthy _); [|reflexivity].
  destruct (fsAccessible _ _); reflexivity.
Qed.

Lemma formatter_never_calls_linter (w : World)
    (event : ConfigurationChangeEvent) :
  linterCalls (emitted (Formatter.restartClient w)) = [] /\
  linterCalls (emitted (Formatter.toggleClient w)) = [] /\
  linterCalls (emitted (Formatter.onConfigChange event w)) = [] /\
  linterCalls (emitted (Formatter.deactivate w)) = [] /\
  linterCalls (emitted (Formatter.activate w)) = [].
Proof.
  repeat split.
  - destruct (client w) as [c|] eqn:H.
    + rewrite (restartClient_outcome _ _ H).
      now destruct (isRunning c), (startFailed c), (nextOk w).
    + now rewrite (restartClient_absent _ H).
  - destruct (client w) as [c|] eqn:H.
    + rewrite (toggleClient_outcome _ _ H).
      destruct (isRunning c) eqn:Hrun, (enable (configService w));
        try reflexivity.
      * rewrite (client_stop_outcome _ _ H). now destruct (startFailed c).
      * rewrite (client_start_outcome _ _ H), Hrun.
        now destruct (startFailed c), (nextOk w).
    + now rewrite (toggleClient_without_client _ H).
  - destruct (onConfigChange_steps event w) as (_ & _ & _ & ->).
    destruct (client w) as [c|]; [|reflexivity]. cbn zeta.
    destruct (effectsWorkspaceConfigChange (configService w) event && isRunning c);
      [rewrite client_sendNotification_run|]; reflexivity.
  - rewrite deactivate_run. destruct (client w) as [c|]; [|reflexivity].
    now destruct (startFailed c).
  - destruct (truthy (resolvedPath w)) eqn:H.
    + rewrite (activate_resolved w H). cbn [after emitted].
      rewrite !linterCalls_app, resolutionEffects_no_linter.
      destruct (enable (configService w)); cbn [when]; [|reflexivity].
      rewrite start_after_registration. now destruct (nextOk w).
    + rewrite (activate_unresolved w H). cbn [emitted].
      now rewrite linterCalls_app, resolutionEffects_no_linter.
Qed.

(** X22.  With the linter's kill-switch set, no top-level entry point calls
    into the linter, whether or not the formatter is kill-switched too. *)
Theorem linter_kill_switch (linterBinds : bool) (w : World)
    (event : ConfigurationChangeEvent) :
  Extension.notTrue w "SKIP_LINTER_TEST" = false ->
  Forall (fun o : Outcome unit => linterCalls (emitted o) = [])
    [Extension.restartCommand w; Extension.toggleEnable w;
     Extension.onConfigChange event w; Extension.activate linterBinds w;
     Extension.deactivate w].
Proof.
  intros Hskip.
  assert (Hwhen : forall (b : bool) (m : M unit) (w' : World),
            linterCalls (emitted (m w')) = [] ->
            linterCalls (emitted (when b m w')) = [])
    by (intros [] m w' H; [exact H | reflexivity]).
  repeat constructor.
  - unfold Extension.restartCommand. run. rewrite Hskip. cbn [when]. run.
    apply Hwhen, formatter_never_calls_linter; exact event.
  - rewrite toggleEnable_run, Hskip. cbn [after emitted app].
    destruct (Extension.notTrue w "SKIP_FORMATTER_TEST"); [|reflexivity].
    apply (formatter_never_calls_linter _ event).
  - unfold Extension.onConfigChange. run. rewrite Hskip. cbn [when]. run.
    apply Hwhen, formatter_never_calls_linter.
  - unfold Extension.activate, push_subscriptions. run.
    change (Extension.notTrue _ "SKIP_LINTER_TEST")
      with (Extension.notTrue w "SKIP_LINTER_TEST").
    rewrite Hskip. cbn [when]. run.
    apply Hwhen, (formatter_never_calls_linter _ event).
  - unfold Extension.deactivate. run. rewrite Hskip. cbn [when]. run.
    apply Hwhen, (formatter_never_calls_linter _ event).
Qed.

(** X22, worked on the sample world with the linter's kill-switch set. *)
Lemma linter_kill_switch_witness :
  Forall (fun o : Outcome unit => linterCalls (emitted o) = [])
    [Extension.restartCommand Cases.linterSkipped;
     Extension.toggleEnable Cases.linterSkipped;
     Extension.onConfigChange ["oxc"] Cases.linterSkipped;
     Extension.activate true Cases.linterSkipped;
     Extension.deactivate Cases.linterSkipped].
Proof.
  apply (linter_kill_switch true Cases.linterSkipped ["oxc"]). reflexivity.
Defined.

(** X23.  An activation of the formatter that resolves a binary rebinds the
    configuration service's change handler to the formatter's own closure,
    whatever it was bound to before, and that closure does exactly what the
    exported [onConfigChange] does. *)
Theorem activate_rebinds_handler (w : World) (path : string)
    (event : ConfigurationChangeEvent) :
  result (Formatter.findBinary w) = Ok (Some path) ->
  path <> "" ->
  onConfigChangeHandler (configService (final (Formatter.activate w))) =
    HandlerFormatter /\
  forall w', Formatter.boundOnConfigChange event w' =
             Formatter.onConfigChange event w'.
Proof.
  intros Hfound Hpath.
  destruct (found_resolved _ _ Hfound Hpath) as [Htruthy _].
  split; [now apply activate_binds_handler | reflexivity].
Qed.

(** X23, worked on the sample world. *)
Lemma activate_rebinds_handler_witness :
  onConfigChangeHandler
    (configService (final (Formatter.activate Sample.world))) =
    HandlerFormatter /\
  forall w', Formatter.boundOnConfigChange ["oxc"] w' =
             Formatter.onConfigChange ["oxc"] w'.
Proof.
  apply (activate_rebinds_handler Sample.world "/usr/local/bin/oxfmt" ["oxc"]).
  - reflexivity.
  - discriminate.
Defined.

(** ** Launch spec and deactivation, continued *)

(** X24.  The server is run through a shell only on Windows and only when
    the binary itself is the command: for a script path the launch spec has
    no shell option at all, otherwise the option says whether the platform
    is [win32]. *)
Theorem launch_spec_shell (w : World) (path : string) :
  result (Formatter.findBinary w) = Ok (Some path) ->
  path <> "" ->
  exists c,
    client (final (Formatter.activate w)) = Some c /\
    shell (options (run (serverOptions c))) =
      if Formatter.isNode path then None
      else Some (String.eqb (processPlatform w) "win32").
Proof.
  intros Hfound Hpath.
  destruct (found_resolved _ _ Hfound Hpath) as [Htruthy Hpath'].
  rewrite (activate_resolved w Htruthy), Hpath'. cbn [after final].
  destruct (when_start_client (enable (configService w)) (registered w path)
              (constructed w path) eq_refl) as [s [Hclient _]].
  exists (set_clientState s (constructed w path)). split; [exact Hclient|].
  cbn [set_clientState constructed serverOptions run].
  unfold Formatter.runExecutable. now destruct (Formatter.isNode path).
Qed.

(** X24, worked on the sample world, whose binary is not a script. *)
Lemma launch_spec_shell_witness :
  exists c,
    client (final (Formatter.activate Sample.world)) = Some c /\
    shell (options (run (serverOptions c))) =
      if Formatter.isNode "/usr/local/bin/oxfmt" then None
      else Some (String.eqb (processPlatform Sample.world) "win32").
Proof.
  apply (launch_spec_shell Sample.world "/usr/local/bin/oxfmt").
  - reflexivity.
  - discriminate.
Defined.

(** X25.  Once a [deactivate] has returned normally the formatter's commands
    find no session: the restart shows "oxc client not found", the toggle
    does nothing and a configuration change sends and emits nothing, until
    the next activation. *)
Theorem commands_after_deactivate (w : World)
    (event : ConfigurationChangeEvent) :
  result (Formatter.deactivate w) = Ok tt ->
  let off := final (Formatter.deactivate w) in
  Formatter.restartClient off =
    {| result := Ok tt; final := off;
       emitted := [ShowErrorMessage "oxc client not found"] |} /\
  Formatter.toggleClient off =
    {| result := Ok tt; final := off; emitted := [] |} /\
  emitted (Formatter.onConfigChange event off) = [] /\
  client (final (Formatter.onConfigChange event off)) = None.
Proof.
  intros Hok. cbn zeta.
  assert (H : client (final (Formatter.deactivate w)) = None).
  { rewrite deactivate_run in Hok |- *.
    destruct (client w) as [c|] eqn:Hc; [|exact Hc].
    now destruct (startFailed c). }
  split; [now apply restartClient_absent|].
  split; [now apply toggleClient_without_client|].
  destruct (onConfigChange_run event (final (Formatter.deactivate w)))
    as (w1 & Hc & _ & _ & _ & ->).
  rewrite H. cbn [final emitted]. now rewrite Hc.
Qed.

(** X25, worked: deactivating the running session of the sample world. *)
Lemma commands_after_deactivate_witness :
  let off := final (Formatter.deactivate (Sample.withSession Running)) in
  Formatter.restartClient off =
    {| result := Ok tt; final := off;
       emitted := [ShowErrorMessage "oxc client not found"] |} /\
  Formatter.toggleClient off =
    {| result := Ok tt; final := off; emitted := [] |} /\
  emitted (Formatter.onConfigChange ["oxc"] off) = [] /\
  client (final (Formatter.onConfigChange ["oxc"] off)) = None.
Proof.
  apply (commands_after_deactivate (Sample.withSession Running) ["oxc"]).
  reflexivity.
Defined.
